(** * Mercado Publico scraper: OCR pipeline and CAPTCHA solver

    A shallow embedding of [scraper/ocr.py] (class [OCRProcessor]),
    [scraper/captcha_solver.py] (class [CaptchaSolver]) and the CAPTCHA step
    of [scraper/downloader.py] ([MercadoPublicoDownloader._download_attachment]),
    with the properties of the design document proved or refuted on it.

    Conventions of the embedding.
    - Python [int] is [Z]; a Python [float] obtained by dividing two ints is
      the exact rational ([Q]); [round] is Python 3's round-half-to-even.
    - A Python [str] is a [string] whose characters are code points below 256.
    - A call that may raise returns a [result]; the exceptions are those of
      the [Exception] hierarchy, which is what [except Exception] catches.
    - Functions that log (loguru / logging) or drive the browser thread a
      [trace] of events through the monad [M].
    - PIL, numpy, OpenCV, pytesseract, base64, requests and Selenium are not
      part of the repository: they are the fields of the interfaces
      [OcrEnv], [Page] and [Web], and every theorem holds for all of their
      implementations. The module [Stub] has small implementations on which
      the functions are run.
    - [time.sleep] leaves no trace and is left out. *)

From Stdlib Require Import ZArith QArith Qround List String Ascii Bool Lia.
From Stdlib Require Import Sorted Permutation.
From stdpp Require Import gmap strings list sorting.

Close Scope Q_scope.
Open Scope Z_scope.

(** ** Python values and exceptions *)

Module Py.

(** An exception object: its class name and [str(e)]. *)
Record exn := mk_exn { exn_type : string; exn_str : string }.

Inductive result (A : Type) : Type :=
| Ok (a : A)
| Raise (e : exn).
Arguments Ok {A} a.
Arguments Raise {A} e.

Definition rbind {A B} (r : result A) (k : A -> result B) : result B :=
  match r with
  | Ok a => k a
  | Raise e => Raise e
  end.

(** [try: r  except Exception: h e] on a computation without effects. *)
Definition rcatch {A} (r : result A) (h : exn -> result A) : result A :=
  match r with
  | Ok a => Ok a
  | Raise e => h e
  end.

Definition is_ok {A} (r : result A) : bool :=
  match r with Ok _ => true | Raise _ => false end.

(** *** Strings *)

(** [str.isspace] on the code points below 256. *)
Definition is_space (c : ascii) : bool :=
  let n := nat_of_ascii c in
  ((9 <=? n) && (n <=? 13) || (28 <=? n) && (n <=? 32)
   || (n =? 133) || (n =? 160))%nat.

Fixpoint lstrip (s : string) : string :=
  match s with
  | EmptyString => EmptyString
  | String c s' => if is_space c then lstrip s' else s
  end.

(** Drops the trailing white space: a character stays when it is not a
    space or when something that stays follows it. *)
Fixpoint rstrip (s : string) : string :=
  match s with
  | EmptyString => EmptyString
  | String c s' =>
      match rstrip s' with
      | EmptyString => if is_space c then EmptyString else String c EmptyString
      | r => String c r
      end
  end.

(** [s.strip()] *)
Definition strip (s : string) : string := rstrip (lstrip s).

(** Truth value of a [str]: non-empty. *)
Definition truthy (s : string) : bool :=
  match s with EmptyString => false | _ => true end.

(** [s.startswith(p)] *)
Definition startswith (s p : string) : bool := String.prefix p s.

(** [len(s.split())]: the number of maximal runs of non-space characters.
    [inword] tells whether the previous character was part of a word. *)
Fixpoint count_words (inword : bool) (s : string) : nat :=
  match s with
  | EmptyString => 0%nat
  | String c s' =>
      if is_space c then count_words false s'
      else if inword then count_words true s'
           else S (count_words true s')
  end.

(** *** Numbers *)

(** [round(q)] with one argument: the nearest integer, ties to the even one. *)
Definition round (q : Q) : Z :=
  let f := Qfloor q in
  match Qcompare (q - inject_Z f) (1 # 2) with
  | Lt => f
  | Gt => f + 1
  | Eq => if Z.even f then f else f + 1
  end.

(** [a / b] on two ints ([b] non-zero where the source divides). *)
Definition truediv (a b : Z) : Q := (inject_Z a / inject_Z b)%Q.

(** [sum(l)] on a list of ints. *)
Definition sum (l : list Z) : Z := fold_left Z.add l 0.

(** *** [sorted(l, key=...)]: stable, ascending in the key *)

Section Sorted.
Context {A : Type} (key : A -> Z).

(** The elements are inserted from the last to the first, so [x] goes
    before the first element whose key is at least its own: equal keys
    keep their order of arrival. *)
Fixpoint insert_sorted (x : A) (l : list A) : list A :=
  match l with
  | [] => [x]
  | y :: l' => if key x <=? key y then x :: l
               else y :: insert_sorted x l'
  end.

Definition sorted (l : list A) : list A := foldr insert_sorted [] l.
End Sorted.

End Py.

Import Py.

(** ** Events and the monad of logging code *)

Inductive level := DEBUG | INFO | WARNING | ERROR.

(** An argument interpolated into an f-string. *)
Inductive log_arg :=
| A_str (s : string)
| A_int (z : Z)
| A_num (q : Q)
| A_exn (e : exn).

Inductive event :=
(** a logger call: the level, the f-string with [{}] for each
    interpolation, and the interpolated values *)
| Log (lv : level) (template : string) (args : list log_arg)
(** entry into a method of the repository (ghost event, used to count calls) *)
| Enter (method : string)
(** [input_field.clear()] and [input_field.send_keys(text)] went through *)
| Cleared
| SentKeys (text : string)
(** [download_button.click()] went through *)
| Clicked.

Definition trace := list event.

(** A computation reads the events so far and returns its outcome with the
    events it adds appended. *)
Definition M (A : Type) : Type := trace -> result A * trace.

Definition ret {A} (a : A) : M A := fun t => (Ok a, t).
Definition raise {A} (e : exn) : M A := fun t => (Raise e, t).
Definition bind {A B} (m : M A) (k : A -> M B) : M B :=
  fun t => match m t with
           | (Ok a, t') => k a t'
           | (Raise e, t') => (Raise e, t')
           end.
Definition emit (ev : event) : M unit := fun t => (Ok tt, t ++ [ev]).
Definition lift {A} (r : result A) : M A := fun t => (r, t).

(** [try: m  except Exception as e: h e] *)
Definition try_except {A} (m : M A) (h : exn -> M A) : M A :=
  fun t => match m t with
           | (Ok a, t') => (Ok a, t')
           | (Raise e, t') => h e t'
           end.

Declare Scope py_scope.
Delimit Scope py_scope with py.
Notation "x <- m ;; k" := (bind m (fun x => k))
  (at level 100, m at next level, right associativity) : py_scope.
Notation "m ;;; k" := (bind m (fun _ => k))
  (at level 100, right associativity) : py_scope.
Notation "x <~ r ;; k" := (rbind r (fun x => k))
  (at level 100, r at next level, right associativity) : py_scope.
Open Scope py_scope.

Definition log (lv : level) (template : string) (args : list log_arg) : M unit :=
  emit (Log lv template args).

(** ** scraper/ocr.py *)

Module Ocr.

(** [pytesseract.image_to_data(..., output_type=Output.DICT)]: a dict of
    parallel columns, one entry per recognised box. A field is the column
    under one key, [None] when the dict has no such key: the six keys the
    source reads, and ['conf'], the key under which pytesseract puts the
    confidences. The keys that are never read (['level'], ['page_num'],
    ['block_num'], ['par_num'], ['line_num'], ['word_num']) are left out.
    The numeric columns hold ints, on which [int(conf)] does nothing, and
    ['text'] holds strs. *)
Record TessData := {
  col_left : option (list Z);         (* data['left'] *)
  col_top : option (list Z);          (* data['top'] *)
  col_width : option (list Z);        (* data['width'] *)
  col_height : option (list Z);       (* data['height'] *)
  col_conf : option (list Z);         (* data['conf'] *)
  col_confidence : option (list Z);   (* data['confidence'] *)
  col_text : option (list string)     (* data['text'] *)
}.

(** [KeyError(key)]; its [str] is the [repr] of the key. *)
Definition key_error (key : string) : exn :=
  mk_exn "KeyError" ("'" +:+ key +:+ "'").

(** [data[key]], [column] being what the dict holds under [key]. *)
Definition getitem {A} (key : string) (column : option A) : result A :=
  match column with
  | Some c => Ok c
  | None => Raise (key_error key)
  end.

Inductive color_code := COLOR_RGB2GRAY.
Inductive thresh_type := THRESH_BINARY.
Inductive interpolation := INTER_NEAREST | INTER_LINEAR | INTER_CUBIC | INTER_AREA.

(** The libraries the module calls. *)
Class OcrEnv := {
  Image : Type;                               (* PIL.Image.Image *)
  ndarray : Type;                             (* numpy.ndarray *)
  Image_open_path : string -> result Image;   (* Image.open(path) *)
  Image_open_bytes : list Byte.byte -> result Image; (* Image.open(io.BytesIO(b)) *)
  Image_fromarray : ndarray -> result Image;
  b64decode : string -> result (list Byte.byte);
  np_array : Image -> result ndarray;         (* np.array(img) *)
  astype_uint8 : ndarray -> result ndarray;   (* a.astype('uint8') *)
  shape : ndarray -> list Z;                  (* a.shape *)
  cvtColor : ndarray -> color_code -> result ndarray;
  (* cv2.threshold(src, thresh, maxval, type) returns (retval, dst) *)
  threshold : ndarray -> Z -> Z -> thresh_type -> result (Q * ndarray);
  (* cv2.fastNlMeansDenoising(src, h=...) *)
  fastNlMeansDenoising : ndarray -> Z -> result ndarray;
  (* cv2.resize(src, dsize, fx=..., fy=..., interpolation=...) *)
  resize : ndarray -> option (Z * Z) -> Z -> Z -> interpolation -> result ndarray;
  (* pytesseract.image_to_string(img, lang=...) *)
  image_to_string : Image -> string -> result string;
  image_to_data : Image -> string -> result TessData;
  (* pytesseract.get_tesseract_version() *)
  get_tesseract_version : result string
}.

(** The instance attributes set by [__init__]. *)
Record OCRProcessor := {
  language : string;
  enable_preprocessing : bool
}.

(** [OCRProcessor()]: the defaults of [__init__]. *)
Definition OCRProcessor_default : OCRProcessor :=
  {| language := "spa"; enable_preprocessing := true |}.

(** Every name an instance of the class answers to: the two instance
    attributes and the methods of the class body, in source order. *)
Definition OCRProcessor_attributes : list string :=
  [ "language"; "enable_preprocessing"; "__init__"; "extract_text_from_image";
    "extract_table_data"; "_load_image"; "_preprocess_image";
    "batch_extract_text"; "set_language"; "validate_tesseract" ]%string.

(** The dict returned by [extract_text_from_image]; ['data': {}] of the
    failure branch is [None] here, and ['error'] is present on failure only. *)
Record TextResult := {
  tr_text : string;
  tr_confidence : Q;
  tr_word_count : nat;
  tr_language : string;
  tr_data : option TessData;
  tr_success : bool;
  tr_error : option string
}.

(** The dict returned by [extract_table_data]. *)
Record TableResult := {
  tb_table : list (list string);
  tb_row_count : nat;
  tb_success : bool;
  tb_error : option string
}.

(** One tuple of the [zip] over the six columns. *)
Record box := {
  b_x : Z; b_y : Z; b_w : Z; b_h : Z; b_conf : Z; b_text : string
}.

(** [zip(lefts, tops, widths, heights, confidences, texts)]: as long as the
    shortest column. *)
Definition zip6 (lefts tops widths heights confidences : list Z)
    (texts : list string) : list box :=
  List.map
    (fun t => match t with
              | (x, (y, (w, (h, (c, s))))) =>
                  {| b_x := x; b_y := y; b_w := w; b_h := h;
                     b_conf := c; b_text := s |}
              end)
    (combine lefts (combine tops (combine widths
       (combine heights (combine confidences texts))))).

(** Lines 107-110: [zip(data['left'], data['top'], data['width'],
    data['height'], data['confidence'], data['text'])]. The six subscripts
    are evaluated from left to right before [zip] is called, and the first
    key that is missing raises. *)
Definition zip_boxes (data : TessData) : result (list box) :=
  lefts <~ getitem "left" (col_left data) ;;
  tops <~ getitem "top" (col_top data) ;;
  widths <~ getitem "width" (col_width data) ;;
  heights <~ getitem "height" (col_height data) ;;
  confidences <~ getitem "confidence" (col_confidence data) ;;
  texts <~ getitem "text" (col_text data) ;;
  Ok (zip6 lefts tops widths heights confidences texts).

(** The dict [{'x': x, 'text': text, 'conf': int(conf)}] stored in a row. *)
Record item := { item_x : Z; item_text : string; item_conf : Z }.

(** Lines 61-62: the average of the confidences above zero.
    [[int(conf) for conf in data['confidence'] if int(conf) > 0]], then
    [sum(confidences) / len(confidences) if confidences else 0]. *)
Definition score (confidence_column : list Z) : Q :=
  let confidences := List.filter (fun conf => 0 <? conf) confidence_column in
  match confidences with
  | [] => 0%Q
  | _ :: _ => truediv (sum confidences) (Z.of_nat (length confidences))
  end.

(** Line 111: [int(conf) > 0 and text.strip()] *)
Definition qualifies (b : box) : bool :=
  (0 <? b_conf b) && truthy (strip (b_text b)).

(** Line 112: [round(y / 10) * 10] *)
Definition row_key (y : Z) : Z := round (truediv y 10) * 10.

(** The body of the loop of lines 107-115 on one tuple. *)
Definition add_box (rows : gmap Z (list item)) (b : box) : gmap Z (list item) :=
  if qualifies b then
    let k := row_key (b_y b) in
    let rows1 := match rows !! k with
                 | None => <[k := []]> rows
                 | Some _ => rows
                 end in
    <[k := (rows1 !!! k)
            ++ [{| item_x := b_x b; item_text := b_text b;
                   item_conf := b_conf b |}]]> rows1
  else rows.

(** Lines 106-115: [rows] after the loop over the tuples of the zip. *)
Definition group_rows (boxes : list box) : gmap Z (list item) :=
  fold_left add_box boxes ∅.

(** [sorted(rows.keys())]. A dict has each key once, so the order in which
    the keys are listed before sorting does not show in the result. *)
Definition sorted_keys (rows : gmap Z (list item)) : list Z :=
  sorted id (fst <$> map_to_list rows).

(** Line 120: [sorted(rows[row_key], key=lambda x: x['x'])] *)
Definition row_data (rows : gmap Z (list item)) (k : Z) : list item :=
  sorted item_x (rows !!! k).

(** Lines 118-122: [sorted_rows]. *)
Definition sorted_rows (rows : gmap Z (list item)) : list (list string) :=
  List.map (fun k => List.map item_text (row_data rows k)) (sorted_keys rows).

Definition index0 (shp : list Z) : result Z :=
  match shp with
  | h :: _ => Ok h
  | [] => Raise (mk_exn "IndexError" "tuple index out of range")
  end.

Section WithEnv.
Context {E : OcrEnv}.

(** The values [image_source: Any] can take, by the [isinstance] tests
    of [_load_image]; [SrcOther] carries [type(image_source)]. *)
Inductive image_source :=
| SrcImage (img : Image)
| SrcArray (a : ndarray)
| SrcBytes (b : list Byte.byte)
| SrcStr (s : string)
| SrcOther (ty : string).

(** Lines 150-168. The inner [except:] is bare: it catches whatever the
    decoding raised. *)
Definition _load_image (src : image_source) : result Image :=
  match src with
  | SrcImage img => Ok img
  | SrcArray a => a' <~ astype_uint8 a ;; Image_fromarray a'
  | SrcBytes b => Image_open_bytes b
  | SrcStr s =>
      if startswith s "/" || startswith s "." then Image_open_path s
      else rcatch (img_data <~ b64decode s ;; Image_open_bytes img_data)
                  (fun _ => Image_open_path s)
  | SrcOther ty =>
      Raise (mk_exn "ValueError" ("Unsupported image source type: " +:+ ty))
  end.

(** Lines 184-188: "Convert to grayscale if needed". *)
Definition grayscale (img_array : ndarray) : result ndarray :=
  if (length (shape img_array) =? 3)%nat
  then cvtColor img_array COLOR_RGB2GRAY
  else Ok img_array.

(** Lines 190-191: "Apply thresholding"; the first component of the pair
    returned by [cv2.threshold] is dropped. *)
Definition binarize (img_gray : ndarray) : result ndarray :=
  thr <~ threshold img_gray 150 255 THRESH_BINARY ;;
  Ok (snd thr).

(** Lines 193-194: "Denoise". *)
Definition denoise (img_binary : ndarray) : result ndarray :=
  fastNlMeansDenoising img_binary 10.

(** Lines 196-199: "Upscale if image is too small"; [shape[0]] is the
    number of pixel rows. *)
Definition upscale (img_denoised : ndarray) : result ndarray :=
  rows <~ index0 (shape img_denoised) ;;
  if rows <? 300
  then let scale := 2 in
       resize img_denoised None scale scale INTER_CUBIC
  else Ok img_denoised.

(** Lines 181-202: the body of the [try] of [_preprocess_image]. *)
Definition preprocess_steps (img : Image) : result Image :=
  img_array <~ np_array img ;;
  img_gray <~ grayscale img_array ;;
  img_binary <~ binarize img_gray ;;
  img_denoised <~ denoise img_binary ;;
  img_denoised <~ upscale img_denoised ;;
  Image_fromarray img_denoised.

(** Lines 180-205. *)
Definition _preprocess_image (img : Image) : M Image :=
  try_except (lift (preprocess_steps img))
    (fun e =>
       log WARNING "Error preprocessing image: {}. Using original image."
           [A_exn e] ;;;
       ret img).

(** Lines 48-58 and 97-103: what both extractors do before they read the
    OCR output. *)
Definition prepare (self : OCRProcessor) (src : image_source) : M Image :=
  img <- lift (_load_image src) ;;
  if enable_preprocessing self then _preprocess_image img else ret img.

(** Lines 46-84. *)
Definition extract_text_from_image (self : OCRProcessor) (src : image_source)
  : M TextResult :=
  try_except
    (img <- prepare self src ;;
     text <- lift (image_to_string img (language self)) ;;
     data <- lift (image_to_data img (language self)) ;;
     confidence_column <- lift (getitem "confidence" (col_confidence data)) ;;
     let avg_confidence := score confidence_column in
     log INFO
       "Extracted text from image with {} characters, confidence: {:.2f}%"
       [A_int (Z.of_nat (String.length text)); A_num avg_confidence] ;;;
     ret {| tr_text := strip text;
            tr_confidence := avg_confidence;
            tr_word_count := count_words false text;
            tr_language := language self;
            tr_data := Some data;
            tr_success := true;
            tr_error := None |})
    (fun e =>
       log ERROR "Error extracting text from image: {}" [A_exn e] ;;;
       ret {| tr_text := EmptyString;
              tr_confidence := 0%Q;
              tr_word_count := 0;
              tr_language := language self;
              tr_data := None;
              tr_success := false;
              tr_error := Some (exn_str e) |}).

(** Lines 96-138. *)
Definition extract_table_data (self : OCRProcessor) (src : image_source)
  : M TableResult :=
  try_except
    (img <- prepare self src ;;
     data <- lift (image_to_data img (language self)) ;;
     boxes <- lift (zip_boxes data) ;;
     let rows := group_rows boxes in
     let sorted_rows := sorted_rows rows in
     log INFO "Extracted table with {} rows"
         [A_int (Z.of_nat (length sorted_rows))] ;;;
     ret {| tb_table := sorted_rows;
            tb_row_count := length sorted_rows;
            tb_success := true;
            tb_error := None |})
    (fun e =>
       log ERROR "Error extracting table data: {}" [A_exn e] ;;;
       ret {| tb_table := [];
              tb_row_count := 0;
              tb_success := false;
              tb_error := Some (exn_str e) |}).

(** Lines 241-247. The handler is for [TesseractNotFoundError] alone; any
    other exception goes on to the caller. *)
Definition validate_tesseract : M bool :=
  try_except
    (lift get_tesseract_version ;;;
     log INFO "Tesseract is properly installed and accessible" [] ;;;
     ret true)
    (fun e =>
       if String.eqb (exn_type e) "TesseractNotFoundError"
       then log ERROR "Tesseract is not installed or not found in PATH" [] ;;;
            ret false
       else raise e).

End WithEnv.

Arguments image_source : clear implicits.

End Ocr.

(** ** scraper/captcha_solver.py *)

Module Captcha.
Import Ocr.

Inductive By := By_ID | By_XPATH | By_CSS_SELECTOR.

(** The page the Selenium driver is on, and the network behind it: what
    each call of the solver meets there. *)
Class Page {E : OcrEnv} := {
  WebElement : Type;
  (* WebDriverWait(driver, 10).until(EC.presence_of_element_located((by, v))) *)
  wait_presence : By -> string -> result WebElement;
  (* WebDriverWait(driver, 10).until(EC.element_to_be_clickable((by, v))) *)
  wait_clickable : By -> string -> result WebElement;
  (* driver.find_element(by, v) *)
  find_element : By -> string -> result WebElement;
  (* element.get_attribute(name): a str or None *)
  get_attribute : WebElement -> string -> result (option string);
  clear : WebElement -> result unit;
  send_keys : WebElement -> string -> result unit;
  click : WebElement -> result unit;
  (* urllib.parse.urljoin(base, url) *)
  urljoin : string -> string -> string;
  (* requests.get(url, timeout=10) then response.raise_for_status();
     the value is response.content *)
  requests_get : string -> result (list Byte.byte)
}.

Section WithEnv.
Context {E : OcrEnv}.

(** The object held in [self.ocr_processor]. The constructor takes an
    [Optional[OCRProcessor]]: an instance of the class itself, or of a
    subclass, which may define further methods; the solver calls one
    method on it, [extract_text]. *)
Inductive ocr_object :=
| Instance (p : OCRProcessor)
| Subclassed (p : OCRProcessor)
             (extract_text : Image -> result (option string)).

(** [self.ocr_processor.extract_text(img_data)]: attribute lookup, then
    the call. Class [OCRProcessor] has no attribute of that name (see
    [OCRProcessor_attributes]); a method of a subclass returns a [str] or
    [None], or raises. *)
Definition attribute_error : exn :=
  mk_exn "AttributeError"
    "'OCRProcessor' object has no attribute 'extract_text'".

Definition call_extract_text (o : ocr_object) (img_data : Image)
  : result (option string) :=
  match o with
  | Instance _ => Raise attribute_error
  | Subclassed _ extract_text => extract_text img_data
  end.

Record CaptchaSolver := {
  ocr_processor : ocr_object;
  base_url : string
}.

(** [__init__]: [ocr_processor or OCRProcessor()]. *)
Definition new_CaptchaSolver (ocr_processor : option ocr_object)
  : CaptchaSolver :=
  {| ocr_processor := match ocr_processor with
                      | Some o => o
                      | None => Instance OCRProcessor_default
                      end;
     base_url := "http://www.mercadopublico.cl" |}.

(** Truth value of an [Optional[str]]. *)
Definition truthy_opt (o : option string) : bool :=
  match o with Some s => truthy s | None => false end.

Definition captcha_xpath : string := "//img[contains(@src, 'Captcha')]".
Definition default_input_id : string := "DWNL$ctl10".

Context {P : Page}.

(** Lines 106-118. *)
Definition _download_image (self : CaptchaSolver) (url : string)
  : M (option Image) :=
  let url := if negb (startswith url "http")
             then urljoin (base_url self) url else url in
  try_except
    (content <- lift (requests_get url) ;;
     img <- lift (Image_open_bytes content) ;;
     ret (Some img))
    (fun e =>
       log ERROR "Error downloading image from {}: {}" [A_str url; A_exn e] ;;;
       ret None).

(** Lines 70-95. A PIL image is always true, so [if not img_data] is the
    test for [None]. *)
Definition _extract_captcha_text (self : CaptchaSolver) : M (option string) :=
  try_except
    (captcha_img <- lift (wait_presence By_XPATH captcha_xpath) ;;
     img_src <- lift (get_attribute captcha_img "src") ;;
     match img_src with
     | Some src =>
         if truthy src then
           img_data <- _download_image self src ;;
           match img_data with
           | None => ret None
           | Some img =>
               captcha_text <-
                 lift (call_extract_text (ocr_processor self) img) ;;
               ret (match captcha_text with
                    | Some s => if truthy s then Some (strip s) else None
                    | None => None
                    end)
           end
         else log ERROR "CAPTCHA image source not found" [] ;;; ret None
     | None => log ERROR "CAPTCHA image source not found" [] ;;; ret None
     end)
    (fun e =>
       log ERROR "Error extracting CAPTCHA text: {}" [A_exn e] ;;;
       ret None).

(** Lines 132-151. *)
Definition _input_captcha_text (text input_id : string) : M bool :=
  try_except
    (input_field <-
       try_except (lift (find_element By_ID input_id))
         (fun _ => lift (find_element By_CSS_SELECTOR ("#" +:+ input_id))) ;;
     lift (clear input_field) ;;;
     emit Cleared ;;;
     lift (send_keys input_field text) ;;;
     emit (SentKeys text) ;;;
     log DEBUG "Entered CAPTCHA text into field {}" [A_str input_id] ;;;
     ret true)
    (fun e =>
       log ERROR "Error inputting CAPTCHA text: {}" [A_exn e] ;;;
       ret false).

(** Lines 47-62. The value of [_input_captcha_text] is not bound. *)
Definition solve (self : CaptchaSolver) (captcha_input_id : string) : M bool :=
  emit (Enter "CaptchaSolver.solve") ;;;
  try_except
    (captcha_text <- _extract_captcha_text self ;;
     match captcha_text with
     | Some text =>
         if truthy text then
           _input_captcha_text text captcha_input_id ;;;
           log INFO "CAPTCHA solved: {}" [A_str text] ;;;
           ret true
         else log WARNING "Failed to extract CAPTCHA text" [] ;;; ret false
     | None => log WARNING "Failed to extract CAPTCHA text" [] ;;; ret false
     end)
    (fun e =>
       log ERROR "Error solving CAPTCHA: {}" [A_exn e] ;;;
       ret false).

End WithEnv.

Arguments ocr_object : clear implicits.
Arguments CaptchaSolver : clear implicits.

End Captcha.

(** ** scraper/downloader.py: the CAPTCHA step of [_download_attachment] *)

Module Downloader.
Import Ocr Captcha.

Section WithEnv.
Context {E : OcrEnv}.

(** What the downloader reaches through its driver and its output
    directory: [driver.get(url)] leads to a page, and the newest file of
    the output directory, if any. *)
Record Web := {
  driver_get : string -> result Page;
  latest_file : result (option string)
}.

Record MercadoPublicoDownloader := {
  captcha_solver : CaptchaSolver E
}.

(** [__init__]: [CaptchaSolver(self.driver, OCRProcessor())]. *)
Definition new_downloader : MercadoPublicoDownloader :=
  {| captcha_solver := new_CaptchaSolver (Some (Instance OCRProcessor_default)) |}.

(** Lines 141-145. *)
Definition _has_captcha {P : Page} : bool :=
  is_ok (find_element By_XPATH captcha_xpath).

(** Lines 149-158. *)
Definition _get_latest_download (w : Web) : M (option string) :=
  try_except (lift (latest_file w))
    (fun e => log ERROR "Error getting latest download: {}" [A_exn e] ;;;
              ret None).

Definition download_xpath : string :=
  "//a[contains(@href, 'DWNL')] | //button[contains(text(), 'Descargar')]".

(** Lines 123-133: after the CAPTCHA step. *)
Definition click_download {P : Page} (w : Web) : M (option string) :=
  download_button <- lift (wait_clickable By_XPATH download_xpath) ;;
  lift (click download_button) ;;;
  emit Clicked ;;;
  _get_latest_download w.

(** Lines 110-137; the calls to [time.sleep] leave no trace. *)
Definition _download_attachment (self : MercadoPublicoDownloader) (w : Web)
    (attachment_url : string) : M (option string) :=
  try_except
    (page <- lift (driver_get w attachment_url) ;;
     if @_has_captcha page then
       log INFO "CAPTCHA detected, attempting to solve..." [] ;;;
       solved <- @solve E page (captcha_solver self) default_input_id ;;
       if solved then @click_download page w
       else log WARNING "Failed to solve CAPTCHA" [] ;;; ret None
     else @click_download page w)
    (fun e =>
       log ERROR "Error downloading attachment: {}" [A_exn e] ;;;
       ret None).

End WithEnv.

Arguments Web : clear implicits.
Arguments MercadoPublicoDownloader : clear implicits.

End Downloader.

(** ** Definitions used to state the properties *)

Module Spec.
Import Ocr.

(** Order by a key. *)
Definition key_le {A : Type} (key : A -> Z) (a b : A) : Prop := key a <= key b.

(** The row entry made from a tuple of the loop. *)
Definition to_item (b : box) : item :=
  {| item_x := b_x b; item_text := b_text b; item_conf := b_conf b |}.

(** The tuples of [l] that pass the test of line 111 and whose key is [k],
    in the order of [l], as row entries. *)
Definition bucket (l : list box) (k : Z) : list item :=
  List.map to_item
    (List.filter (fun b => qualifies b && (row_key (b_y b) =? k)) l).

(** Sum and number of the confidences above zero, by recursion on the
    column. *)
Fixpoint pos_sum (l : list Z) : Z :=
  match l with
  | [] => 0
  | c :: l' => if 0 <? c then c + pos_sum l' else pos_sum l'
  end.

Fixpoint pos_count (l : list Z) : Z :=
  match l with
  | [] => 0
  | c :: l' => if 0 <? c then 1 + pos_count l' else pos_count l'
  end.

(** The dict of the [except] branch of [extract_text_from_image]. *)
Definition failed_text (self : OCRProcessor) (e : exn) : TextResult :=
  {| tr_text := EmptyString; tr_confidence := 0%Q; tr_word_count := 0;
     tr_language := language self; tr_data := None;
     tr_success := false; tr_error := Some (exn_str e) |}.

(** The dict of the [except] branch of [extract_table_data]. *)
Definition failed_table (e : exn) : TableResult :=
  {| tb_table := []; tb_row_count := 0; tb_success := false;
     tb_error := Some (exn_str e) |}.

(** An internal step of the preprocessing fails with [e], the steps before
    it having gone through. *)
Inductive step_fails {E : OcrEnv} (img : Image) (e : exn) : Prop :=
| fails_array :
    np_array img = Raise e -> step_fails img e
| fails_grayscale a :
    np_array img = Ok a -> grayscale a = Raise e -> step_fails img e
| fails_binarize a g :
    np_array img = Ok a -> grayscale a = Ok g -> binarize g = Raise e ->
    step_fails img e
| fails_denoise a g b :
    np_array img = Ok a -> grayscale a = Ok g -> binarize g = Ok b ->
    denoise b = Raise e -> step_fails img e
| fails_upscale a g b d :
    np_array img = Ok a -> grayscale a = Ok g -> binarize g = Ok b ->
    denoise b = Ok d -> upscale d = Raise e -> step_fails img e
| fails_fromarray a g b d u :
    np_array img = Ok a -> grayscale a = Ok g -> binarize g = Ok b ->
    denoise b = Ok d -> upscale d = Ok u -> Image_fromarray u = Raise e ->
    step_fails img e.

(** The warning of line 204. *)
Definition preprocessing_warning (e : exn) : event :=
  Log WARNING "Error preprocessing image: {}. Using original image." [A_exn e].


(** The calls of [CaptchaSolver.solve] recorded in a trace. *)
Definition is_solve_call (ev : event) : bool :=
  match ev with
  | Enter m => String.eqb m "CaptchaSolver.solve"
  | _ => false
  end.

Definition solve_calls (t : trace) : nat :=
  length (List.filter is_solve_call t).

(** The keys of the dict as pytesseract builds it for [Output.DICT]: the
    columns of Tesseract's TSV output, where the confidences stand under
    ['conf']. There is no key ['confidence']. *)
Definition pytesseract_keys (data : TessData) : Prop :=
  is_Some (col_left data) /\ is_Some (col_top data)
  /\ is_Some (col_width data) /\ is_Some (col_height data)
  /\ is_Some (col_conf data) /\ is_Some (col_text data)
  /\ col_confidence data = None.

(** The design document's test for a token that stays: confidence above
    zero and a text that is not empty. *)
Definition doc_keeps (b : box) : bool :=
  (0 <? b_conf b) && negb (String.eqb (b_text b) EmptyString).

End Spec.

(** ** Test doubles *)

(** Small implementations of the library interfaces, on which the
    functions above can be run: an image and an array are their shape. *)
Module Stub.
Import Ocr Captcha Downloader.

Definition tesseract_missing : exn :=
  mk_exn "TesseractNotFoundError"
    "tesseract is not installed or it's not in your PATH.".

Definition cv2_error : exn := mk_exn "cv2.error" "OpenCV: assertion failed".

Definition no_such_element : exn :=
  mk_exn "NoSuchElementException" "no such element".

(** [to_string] and [to_data] are what the OCR engine answers; [denoise]
    is the denoising pass. *)
Definition env (to_string : result string) (to_data : result TessData)
    (denoise : list Z -> result (list Z)) : OcrEnv :=
  {| Image := list Z;
     ndarray := list Z;
     Image_open_path := fun s =>
       if String.eqb s "/tmp/captcha.png" || String.eqb s "captcha.png"
       then Ok [60; 200]
       else Raise (mk_exn "FileNotFoundError" "No such file or directory");
     Image_open_bytes := fun b =>
       match b with
       | Byte.x89 :: _ => Ok [60; 200]
       | _ => Raise (mk_exn "UnidentifiedImageError" "cannot identify image file")
       end;
     Image_fromarray := Ok;
     b64decode := fun s =>
       if String.eqb s "iVBORw=="
       then Ok [Byte.x89; Byte.x50; Byte.x4e; Byte.x47]
       else if String.eqb s "AAAA"
       then Ok [Byte.x00; Byte.x00; Byte.x00]
       else Raise (mk_exn "binascii.Error" "Incorrect padding");
     np_array := Ok;
     astype_uint8 := Ok;
     shape := fun a => a;
     cvtColor := fun a _ => Ok (firstn 2 a);
     threshold := fun a _ _ _ => Ok (150%Q, a);
     fastNlMeansDenoising := fun a _ => denoise a;
     resize := fun a _ fx fy _ =>
       Ok (match a with
           | h :: w :: rest => fy * h :: fx * w :: rest
           | _ => a
           end);
     image_to_string := fun _ _ => to_string;
     image_to_data := fun _ _ => to_data;
     get_tesseract_version := _ <~ to_string ;; Ok "5.3.0"%string |}.

(** The dict of the engine for an image that shows "AB 12": four boxes, two
    words on one line, a blank box with a confidence, and a box without
    confidence; the confidences are under ['conf']. *)
Definition data4 : TessData :=
  {| col_left := Some [120; 10; 40; 0];
     col_top := Some [104; 100; 112; 0];
     col_width := Some [50; 50; 5; 200];
     col_height := Some [12; 12; 12; 60];
     col_conf := Some [88; 96; 95; -1];
     col_confidence := None;
     col_text := Some ["12"; "AB"; " "; EmptyString]%string |}.

(** The same boxes in a dict that has the confidences under ['confidence'],
    the key the source reads. *)
Definition data4_renamed : TessData :=
  {| col_left := col_left data4;
     col_top := col_top data4;
     col_width := col_width data4;
     col_height := col_height data4;
     col_conf := None;
     col_confidence := col_conf data4;
     col_text := col_text data4 |}.

(** The tuples of the zip over the columns of [data4_renamed]. *)
Definition boxes4 : list box :=
  zip6 [120; 10; 40; 0] [104; 100; 112; 0] [50; 50; 5; 200] [12; 12; 12; 60]
    [88; 96; 95; -1] ["12"; "AB"; " "; EmptyString]%string.

(** One blank box with a confidence. *)
Definition blank : list box :=
  [{| b_x := 40; b_y := 112; b_w := 5; b_h := 12; b_conf := 95;
      b_text := " " |}].

(** The engine works and reads [data4]. *)
Definition working : OcrEnv := env (Ok "AB 12"%string) (Ok data4) Ok.

(** An engine whose dict has the key of the source. *)
Definition renamed : OcrEnv := env (Ok "AB 12"%string) (Ok data4_renamed) Ok.

(** The engine is not installed. *)
Definition no_engine : OcrEnv :=
  env (Raise tesseract_missing) (Raise tesseract_missing) Ok.

(** The denoising pass fails. *)
Definition no_denoise : OcrEnv :=
  env (Ok "AB 12"%string) (Ok data4) (fun _ => Raise cv2_error).

(** A page with a CAPTCHA image whose source downloads; [field] is what
    looking up the input field gives, by either locator. *)
Definition page {E : OcrEnv} (field : result unit) : Page :=
  {| WebElement := unit;
     wait_presence := fun _ _ => Ok tt;
     wait_clickable := fun _ _ => Ok tt;
     find_element := fun b _ =>
       match b with
       | By_XPATH => Ok tt
       | By_ID | By_CSS_SELECTOR => field
       end;
     get_attribute := fun _ _ => Ok (Some "/Captcha.aspx"%string);
     clear := fun _ => Ok tt;
     send_keys := fun _ _ => Ok tt;
     click := fun _ => Ok tt;
     urljoin := fun base url => (base +:+ url)%string;
     requests_get := fun _ => Ok [Byte.x89; Byte.x50; Byte.x4e; Byte.x47] |}.

(** A subclass of [OCRProcessor] whose [extract_text] answers [answer]. *)
Definition reader {E : OcrEnv} (answer : option string) : ocr_object E :=
  Subclassed OCRProcessor_default (fun _ => Ok answer).

Definition web {E : OcrEnv} (p : Page) : Web E :=
  {| driver_get := fun _ => Ok p; latest_file := Ok (Some "downloads/bases.pdf"%string) |}.

End Stub.

(** ** The rest of the three modules *)

(** *** scraper/ocr.py: construction, language, batches *)

Module OcrRest.
Import Ocr.

(** Lines 32-34: [OCRProcessor(language, enable_preprocessing)]. *)
Definition OCRProcessor_init (language : string) (enable_preprocessing : bool)
  : M OCRProcessor :=
  log INFO "Initialized OCR processor with language: {}" [A_str language] ;;;
  ret {| language := language; enable_preprocessing := enable_preprocessing |}.

(** Lines 231-232: the object after [self.language = language]. *)
Definition set_language (self : OCRProcessor) (language : string)
  : M OCRProcessor :=
  log INFO "Changed OCR language to: {}" [A_str language] ;;;
  ret {| language := language;
         enable_preprocessing := enable_preprocessing self |}.

Section WithEnv.
Context {E : OcrEnv}.

(** Lines 218-221: the loop of [batch_extract_text] from image number [idx]
    on, [total] being [len(image_sources)]. *)
Fixpoint batch_loop (self : OCRProcessor) (total idx : Z)
    (image_sources : list (image_source E)) (results : list TextResult)
  : M (list TextResult) :=
  match image_sources with
  | [] => ret results
  | source :: rest =>
      log INFO "Processing image {}/{}" [A_int idx; A_int total] ;;;
      result <- extract_text_from_image self source ;;
      batch_loop self total (idx + 1) rest (results ++ [result])
  end.

(** Lines 217-222. *)
Definition batch_extract_text (self : OCRProcessor)
    (image_sources : list (image_source E)) : M (list TextResult) :=
  batch_loop self (Z.of_nat (length image_sources)) 1 image_sources [].

End WithEnv.

End OcrRest.

(** *** scraper/captcha_solver.py: the image without solving *)

Module CaptchaRest.
Import Ocr Captcha.

Section WithEnv.
Context {E : OcrEnv} {P : Page}.

(** Lines 159-167. *)
Definition get_captcha_image (self : CaptchaSolver E) : M (option Image) :=
  try_except
    (captcha_img <- lift (find_element By_XPATH captcha_xpath) ;;
     img_src <- lift (get_attribute captcha_img "src") ;;
     match img_src with
     | Some src => if truthy src then _download_image self src else ret None
     | None => ret None
     end)
    (fun e =>
       log ERROR "Error getting CAPTCHA image: {}" [A_exn e] ;;;
       ret None).

End WithEnv.

End CaptchaRest.

(** *** scraper/downloader.py: the tender page and its attachments *)

Module DownloaderRest.
Import Ocr Captcha Downloader.

Section WithEnv.
Context {E : OcrEnv}.

(** The page of a tender: a page, and what listing its links gives. *)
Record TenderPage := {
  tender_page : Page;
  (* WebDriverWait(driver, 10).until(
       EC.presence_of_all_elements_located((by, v))) *)
  wait_all_present : By -> string -> result (list WebElement);
  (* driver.find_elements(by, v) *)
  find_elements : By -> string -> result (list WebElement)
}.

(** The browser of the downloader: the attachment pages of [Web], the
    tender page that [driver.get(tender_url)] leads to, and [driver.quit()]. *)
Record Browser := {
  web : Web E;
  tender_get : string -> result TenderPage;
  quit : result unit
}.

Definition bid_xpath : string := "//a[contains(@href, 'BID')]".
Definition attachment_xpath : string :=
  "//a[contains(@href, 'ViewBidAttachment')]".

(** Lines 93-96: the loop over the elements. The links found so far stay
    in [links] when [get_attribute] raises; the exception is returned with
    them. *)
Fixpoint collect_links (tp : TenderPage)
    (elements : list (@WebElement E (tender_page tp))) (links : list string)
  : list string * option exn :=
  match elements with
  | [] => (links, None)
  | elem :: rest =>
      match @get_attribute E (tender_page tp) elem "href" with
      | Raise e => (links, Some e)
      | Ok href =>
          collect_links tp rest
            (match href with
             | Some h => if truthy h then links ++ [h] else links
             | None => links
             end)
      end
  end.

(** Lines 88-99. *)
Definition _find_attachment_links (tp : TenderPage) : M (list string) :=
  match find_elements tp By_XPATH attachment_xpath with
  | Raise e =>
      log ERROR "Error finding attachment links: {}" [A_exn e] ;;; ret []
  | Ok elements =>
      match collect_links tp elements [] with
      | (links, Some e) =>
          log ERROR "Error finding attachment links: {}" [A_exn e] ;;;
          ret links
      | (links, None) => ret links
      end
  end.

(** Lines 162-165; the call is recorded by a ghost event. *)
Definition close (b : Browser) : M unit :=
  emit (Enter "MercadoPublicoDownloader.close") ;;;
  try_except (lift (quit b))
    (fun e => log ERROR "Error closing driver: {}" [A_exn e] ;;; ret tt).

(** Lines 69-77: the loop over the links, [i] being the index of
    [enumerate] and [total] the number of links. *)
Fixpoint download_loop (self : MercadoPublicoDownloader E) (b : Browser)
    (total i : Z) (links : list string) (downloaded_files : list string)
  : M (list string) :=
  match links with
  | [] => ret downloaded_files
  | link :: rest =>
      file_path <-
        try_except
          (log INFO "Downloading attachment {}/{}" [A_int (i + 1); A_int total] ;;;
           _download_attachment self (web b) link)
          (fun e =>
             log ERROR "Error downloading attachment: {}" [A_exn e] ;;;
             ret None) ;;
      download_loop self b total (i + 1) rest
        (match file_path with
         | Some f => if truthy f then downloaded_files ++ [f]
                     else downloaded_files
         | None => downloaded_files
         end)
  end.

(** Lines 58-84. Nothing has been appended to [downloaded_files] when a
    statement before the loop raises, and the loop catches what its body
    raises, so the handler of the outer [try] returns the empty list; the
    [finally] clause runs [close] on every path. *)
Definition download_documents (self : MercadoPublicoDownloader E)
    (b : Browser) (tender_url : string) : M (list string) :=
  downloaded_files <-
    try_except
      (tp <- lift (tender_get b tender_url) ;;
       lift (wait_all_present tp By_XPATH bid_xpath) ;;;
       attachment_elements <- _find_attachment_links tp ;;
       log INFO "Found {} attachment links"
           [A_int (Z.of_nat (length attachment_elements))] ;;;
       download_loop self b (Z.of_nat (length attachment_elements)) 0
         attachment_elements [])
      (fun e =>
         log ERROR "Error in download_documents: {}" [A_exn e] ;;;
         ret []) ;;
  close b ;;;
  ret downloaded_files.

End WithEnv.

Arguments TenderPage : clear implicits.
Arguments Browser : clear implicits.

End DownloaderRest.

(** *** Definitions used to state the further properties *)

Module SpecRest.
Import Ocr Captcha Downloader OcrRest CaptchaRest DownloaderRest.

(** Only white space. *)
Fixpoint all_space (s : string) : bool :=
  match s with
  | EmptyString => true
  | String c s' => is_space c && all_space s'
  end.

(** Empty, or beginning with a character that is not white space. *)
Definition starts_clean (s : string) : bool :=
  match s with
  | EmptyString => true
  | String c _ => negb (is_space c)
  end.

(** The texts sent to an input field, in order. *)
Fixpoint typed (t : trace) : list string :=
  match t with
  | [] => []
  | SentKeys text :: t' => text :: typed t'
  | _ :: t' => typed t'
  end.

(** The browser actions of a trace: clearing, typing, clicking. *)
Definition is_action (ev : event) : bool :=
  match ev with
  | Cleared | SentKeys _ | Clicked => true
  | Log _ _ _ | Enter _ => false
  end.

Definition actions (t : trace) : list event := List.filter is_action t.

Definition is_click (ev : event) : bool :=
  match ev with Clicked => true | _ => false end.

Definition clicks (t : trace) : nat := length (List.filter is_click t).

Definition is_close_call (ev : event) : bool :=
  match ev with
  | Enter m => String.eqb m "MercadoPublicoDownloader.close"
  | _ => false
  end.

Definition close_calls (t : trace) : nat :=
  length (List.filter is_close_call t).


(** The test [if href:] and [if file_path:] on an [Optional[str]]: the
    strings that are kept. *)
Definition kept (o : result (option string)) : list string :=
  match o with
  | Ok (Some h) => if truthy h then [h] else []
  | _ => []
  end.

End SpecRest.

(** *** Further test doubles *)

Module StubRest.
Import Ocr Captcha Downloader DownloaderRest.

(** A page without CAPTCHA image. *)
Definition plain_page {E : OcrEnv} : Page :=
  {| WebElement := unit;
     wait_presence := fun _ _ => Raise Stub.no_such_element;
     wait_clickable := fun _ _ => Ok tt;
     find_element := fun _ _ => Raise Stub.no_such_element;
     get_attribute := fun _ _ => Ok None;
     clear := fun _ => Ok tt;
     send_keys := fun _ _ => Ok tt;
     click := fun _ => Ok tt;
     urljoin := fun base url => (base +:+ url)%string;
     requests_get := fun _ => Raise Stub.no_such_element |}.

(** A tender page with three links: two attachments and one without [href]. *)
Definition listing_page {E : OcrEnv} : Page :=
  {| WebElement := option string;
     wait_presence := fun _ _ => Raise Stub.no_such_element;
     wait_clickable := fun _ _ => Raise Stub.no_such_element;
     find_element := fun _ _ => Raise Stub.no_such_element;
     get_attribute := fun elem _ => Ok elem;
     clear := fun _ => Ok tt;
     send_keys := fun _ _ => Ok tt;
     click := fun _ => Ok tt;
     urljoin := fun base url => (base +:+ url)%string;
     requests_get := fun _ => Raise Stub.no_such_element |}.

Definition tender {E : OcrEnv} : TenderPage E :=
  {| tender_page := listing_page;
     wait_all_present := fun _ _ => Ok [];
     find_elements := fun _ _ =>
       Ok [Some "/ViewBidAttachment.aspx?a=1"%string; None;
           Some "/ViewBidAttachment.aspx?a=2"%string] |}.

(** A page whose elements are what reading their [href] gives. *)
Definition flaky_page {E : OcrEnv} : Page :=
  {| WebElement := result (option string);
     wait_presence := fun _ _ => Raise Stub.no_such_element;
     wait_clickable := fun _ _ => Raise Stub.no_such_element;
     find_element := fun _ _ => Raise Stub.no_such_element;
     get_attribute := fun elem _ => elem;
     clear := fun _ => Ok tt;
     send_keys := fun _ _ => Ok tt;
     click := fun _ => Ok tt;
     urljoin := fun base url => (base +:+ url)%string;
     requests_get := fun _ => Raise Stub.no_such_element |}.

Definition stale : exn :=
  mk_exn "StaleElementReferenceException" "stale element reference".

(** A tender page with a link, a link that has gone stale, and a link. *)
Definition flaky_tender {E : OcrEnv} : TenderPage E :=
  {| tender_page := flaky_page;
     wait_all_present := fun _ _ => Ok [];
     find_elements := fun _ _ =>
       Ok [Ok (Some "/ViewBidAttachment.aspx?a=1"%string); Raise stale;
           Ok (Some "/ViewBidAttachment.aspx?a=2"%string)] |}.

(** A tender page whose links cannot be listed. *)
Definition broken_tender {E : OcrEnv} : TenderPage E :=
  {| tender_page := listing_page;
     wait_all_present := fun _ _ => Ok [];
     find_elements := fun _ _ => Raise Stub.no_such_element |}.

(** The tender page cannot be opened. *)
Definition offline_browser {E : OcrEnv} : Browser E :=
  {| web := Stub.web (Stub.page (Ok tt));
     tender_get := fun _ =>
       Raise (mk_exn "WebDriverException" "net::ERR_NAME_NOT_RESOLVED");
     quit := Ok tt |}.


(** Attachment 1 is behind a CAPTCHA, attachment 2 is not. *)
Definition browser {E : OcrEnv} : Browser E :=
  {| web := {| driver_get := fun url =>
                 if String.eqb url "/ViewBidAttachment.aspx?a=1"
                 then Ok (Stub.page (Ok tt)) else Ok plain_page;
               latest_file := Ok (Some "downloads/bases.pdf"%string) |};
     tender_get := fun _ => Ok tender;
     quit := Ok tt |}.

End StubRest.

(** * Properties *)

Import Ocr Captcha Downloader Spec.

(** ** Python helpers *)

Example strip_ex : strip "  AB 12 " = "AB 12"%string.
Proof. reflexivity. Qed.

Example strip_blank_ex : strip " " = EmptyString.
Proof. reflexivity. Qed.

Example count_words_ex : count_words false " uno  dos tres " = 3%nat.
Proof. reflexivity. Qed.

Example round_ex :
  List.map round [(5 # 2); (7 # 2); (-5 # 2); (104 # 10); (112 # 10); (-1 # 2)]%Q
  = [2; 4; -2; 10; 11; 0].
Proof. reflexivity. Qed.

Example sorted_ex :
  sorted fst [(3, "c"); (1, "a"); (3, "d"); (2, "b"); (1, "e")]
  = [(1, "a"); (1, "e"); (2, "b"); (3, "c"); (3, "d")].
Proof. reflexivity. Qed.

Section SortedFacts.
Context {A : Type} (key : A -> Z).

Lemma insert_sorted_perm (a : A) (l : list A) :
  insert_sorted key a l ≡ₚ a :: l.
Proof.
  induction l as [|y l IH]; simpl; [done|].
  destruct (key a <=? key y); [done|].
  rewrite IH. apply Permutation_swap.
Qed.

Lemma sorted_perm (l : list A) : sorted key l ≡ₚ l.
Proof.
  induction l as [|a l IH]; simpl; [done|].
  unfold sorted in *. simpl. rewrite insert_sorted_perm. by rewrite IH.
Qed.

Lemma insert_sorted_Sorted (a : A) (l : list A) :
  Sorted (key_le key) l -> Sorted (key_le key) (insert_sorted key a l).
Proof.
  induction l as [|y l IH]; simpl; intros Hs.
  - repeat constructor.
  - destruct (Z.leb_spec (key a) (key y)) as [Hle|Hgt].
    + constructor; [done|]. by constructor.
    + apply Sorted_inv in Hs as [Hs Hhd]. constructor; [by apply IH|].
      destruct l as [|z l]; simpl.
      * constructor. unfold key_le. lia.
      * destruct (Z.leb_spec (key a) (key z)); constructor; unfold key_le.
        -- lia.
        -- by apply HdRel_inv in Hhd.
Qed.

Lemma sorted_Sorted (l : list A) : Sorted (key_le key) (sorted key l).
Proof.
  induction l as [|a l IH]; [constructor|].
  unfold sorted in *. simpl. by apply insert_sorted_Sorted.
Qed.

End SortedFacts.

(** Sorting keys that are pairwise distinct gives a strictly increasing list. *)
Lemma sorted_id_strict (l : list Z) :
  NoDup l -> StronglySorted Z.lt (sorted id l).
Proof.
  intros Hnd.
  assert (Hs : StronglySorted Z.le (sorted id l)).
  { apply Sorted_StronglySorted; [intros ???; lia|]. apply (sorted_Sorted id). }
  assert (Hnd' : NoDup (sorted id l)) by (by rewrite (sorted_perm id l)).
  induction Hs as [|a s Hs IH Hall]; [constructor|].
  apply NoDup_cons in Hnd' as [Hnotin Hnd']. constructor; [by apply IH|].
  rewrite Forall_forall in Hall |- *. intros b Hb.
  assert (a <> b) by (intros ->; by apply Hnotin).
  specialize (Hall b Hb). lia.
Qed.

(** ** The row key *)

(** The key in integer arithmetic: ten times the quotient, rounded up when
    the remainder is above five, and on a remainder of five to the even
    neighbour. *)
Lemma row_key_div_mod (y : Z) :
  row_key y =
  10 * (if y mod 10 <? 5 then y / 10
        else if 5 <? y mod 10 then y / 10 + 1
        else if Z.even (y / 10) then y / 10 else y / 10 + 1).
Proof.
  unfold row_key, round, truediv.
  assert (Hf : Qfloor (inject_Z y / inject_Z 10) = y / 10).
  { unfold Qfloor, Qdiv, Qmult, Qinv, inject_Z. simpl. by rewrite Z.mul_1_r. }
  rewrite Hf.
  pose proof (Z.div_mod y 10 ltac:(lia)) as Hdm.
  pose proof (Z.mod_pos_bound y 10 ltac:(lia)) as Hb.
  assert (Hc : ((inject_Z y / inject_Z 10 - inject_Z (y / 10)) ?= 1 # 2)%Q
               = (y mod 10 ?= 5)).
  { unfold Qcompare, Qminus, Qplus, Qopp, Qdiv, Qmult, Qinv, inject_Z. simpl.
    destruct (Z.compare_spec (y mod 10) 5);
      [apply Z.compare_eq_iff | apply Z.compare_lt_iff | apply Z.compare_gt_iff];
      lia. }
  rewrite Hc.
  destruct (Z.compare_spec (y mod 10) 5), (Z.ltb_spec (y mod 10) 5),
    (Z.ltb_spec 5 (y mod 10)); lia.
Qed.

(** A tie goes to the even multiple: [round(10.5) = 10], [round(11.5) = 12]. *)
Example row_key_ex :
  List.map row_key [100; 104; 105; 106; 112; 115; -5; -15]
  = [100; 100; 100; 110; 110; 120; 0; -20].
Proof. reflexivity. Qed.

Lemma row_key_multiple (y : Z) : row_key y mod 10 = 0.
Proof.
  rewrite row_key_div_mod, Z.mul_comm. apply Z.mod_mul. lia.
Qed.

Lemma row_key_nearest (y k : Z) : Z.abs (row_key y - y) <= Z.abs (10 * k - y).
Proof.
  rewrite row_key_div_mod.
  pose proof (Z.div_mod y 10 ltac:(lia)).
  pose proof (Z.mod_pos_bound y 10 ltac:(lia)).
  destruct (Z.ltb_spec (y mod 10) 5), (Z.ltb_spec 5 (y mod 10)),
    (Z.even (y / 10)); lia.
Qed.

(** ** Grouping into rows *)

Lemma add_box_lookup (rows : gmap Z (list item)) (b : box) (k : Z) :
  add_box rows b !! k =
  if qualifies b && (row_key (b_y b) =? k)
  then Some (default [] (rows !! k) ++ [to_item b])
  else rows !! k.
Proof.
  unfold add_box. destruct (qualifies b); simpl; [|done].
  destruct (Z.eqb_spec (row_key (b_y b)) k) as [->|Hne].
  - rewrite lookup_insert_eq. f_equal. f_equal.
    destruct (rows !! k) as [v|] eqn:Hk.
    + by rewrite lookup_total_alt, Hk.
    + by rewrite lookup_total_insert_eq.
  - rewrite lookup_insert_ne by done.
    destruct (rows !! row_key (b_y b)); [done|]. by rewrite lookup_insert_ne.
Qed.

Lemma fold_add_box_lookup (l : list box) (rows : gmap Z (list item)) (k : Z) :
  fold_left add_box l rows !! k =
  match rows !! k, bucket l k with
  | None, [] => None
  | o, bk => Some (default [] o ++ bk)
  end.
Proof.
  revert rows. induction l as [|b l IH]; intros rows; simpl.
  - unfold bucket. simpl. destruct (rows !! k); simpl; [|done].
    by rewrite app_nil_r.
  - rewrite IH, add_box_lookup. unfold bucket. simpl.
    destruct (qualifies b && (row_key (b_y b) =? k)); simpl.
    + rewrite <- app_assoc. simpl.
      by destruct (rows !! k), (List.map to_item _).
    + done.
Qed.

(** After the loop, the row stored under [k] holds exactly the tuples that
    pass the test and have key [k], in their order of arrival; a key with no
    such tuple is absent. *)
Lemma group_rows_lookup (boxes : list box) (k : Z) :
  group_rows boxes !! k =
  match bucket boxes k with
  | [] => None
  | bk => Some bk
  end.
Proof.
  unfold group_rows. rewrite fold_add_box_lookup, lookup_empty.
  by destruct (bucket _ k).
Qed.

Lemma group_rows_lookup_total (boxes : list box) (k : Z) :
  group_rows boxes !!! k = bucket boxes k.
Proof.
  rewrite lookup_total_alt, group_rows_lookup. by destruct (bucket _ k).
Qed.

(** What the loop of lines 107-115 does with the tuples it is given: every
    tuple that passes the test of line 111 is stored in the row whose key is
    [round(y / 10) * 10]. The key is a multiple of 10 and no multiple of 10
    is nearer to [y]; 100 and 104 share a key, 100 and 112 do not. *)
Lemma row_bucket_quantizes :
  (forall (boxes : list box) (k : Z),
      group_rows boxes !!! k = bucket boxes k)
  /\ (forall y : Z, row_key y = round (truediv y 10) * 10)
  /\ (forall y : Z, row_key y mod 10 = 0)
  /\ (forall y k : Z, Z.abs (row_key y - y) <= Z.abs (10 * k - y))
  /\ row_key 100 = row_key 104
  /\ row_key 100 <> row_key 112.
Proof.
  split; [apply group_rows_lookup_total|].
  split; [reflexivity|].
  split; [apply row_key_multiple|].
  split; [apply row_key_nearest|].
  split; [reflexivity|]. vm_compute. discriminate.
Qed.

(** ** Rows and their order *)

Lemma filter_split_perm {B} (p : B -> bool) (l : list B) :
  List.filter p l ++ List.filter (fun b => negb (p b)) l ≡ₚ l.
Proof.
  induction l as [|b l IH]; simpl; [done|].
  destruct (p b); simpl.
  - by rewrite IH.
  - rewrite <- Permutation_middle. by rewrite IH.
Qed.

Lemma filter_filter_ne {B} (key : B -> Z) (k k' : Z) (l : list B) :
  k' <> k ->
  List.filter (fun b => key b =? k')
    (List.filter (fun b => negb (key b =? k)) l)
  = List.filter (fun b => key b =? k') l.
Proof.
  intros Hne. induction l as [|b l IH]; simpl; [done|].
  destruct (Z.eqb_spec (key b) k) as [Hk|Hk]; simpl.
  - destruct (Z.eqb_spec (key b) k'); [lia|done].
  - destruct (key b =? k'); by rewrite IH.
Qed.

(** Cutting a list into the classes of a key function, over a duplicate-free
    list of keys that covers it, loses and repeats nothing. *)
Lemma concat_classes_perm {B} (key : B -> Z) (ks : list Z) (l : list B) :
  NoDup ks ->
  (forall b, In b l -> In (key b) ks) ->
  concat (List.map (fun k => List.filter (fun b => key b =? k) l) ks) ≡ₚ l.
Proof.
  revert l. induction ks as [|k ks IH]; intros l Hnd Hcov; simpl.
  - destruct l as [|b l]; [done|]. destruct (Hcov b). by left.
  - apply NoDup_cons in Hnd as [Hk Hnd].
    etrans; [|apply (filter_split_perm (fun b => key b =? k) l)].
    apply Permutation_app_head.
    rewrite <- (IH (List.filter (fun b => negb (key b =? k)) l) Hnd).
    + erewrite map_ext_in; [reflexivity|].
      intros k' Hk'. simpl. rewrite filter_filter_ne; [done|].
      intros ->. apply Hk. by apply list_elem_of_In.
    + intros b Hb. apply filter_In in Hb as [Hb Hne].
      destruct (Hcov b Hb) as [Heq|Hin]; [|done].
      subst k. by rewrite Z.eqb_refl in Hne.
Qed.

Lemma concat_map_perm {B C} (f g : B -> list C) (ks : list B) :
  (forall k, f k ≡ₚ g k) ->
  concat (List.map f ks) ≡ₚ concat (List.map g ks).
Proof.
  intros Hfg. induction ks as [|k ks IH]; simpl; [done|].
  by rewrite Hfg, IH.
Qed.

Lemma sorted_keys_elem (rows : gmap Z (list item)) (k : Z) :
  In k (sorted_keys rows) <-> is_Some (rows !! k).
Proof.
  unfold sorted_keys. rewrite <- list_elem_of_In, (sorted_perm id).
  rewrite list_elem_of_fmap. split.
  - intros [[k' v] [-> Hkv]]. apply elem_of_map_to_list in Hkv. by exists v.
  - intros [v Hv]. exists (k, v). split; [done|].
    by apply elem_of_map_to_list.
Qed.

Lemma sorted_keys_strict (rows : gmap Z (list item)) :
  StronglySorted Z.lt (sorted_keys rows).
Proof. apply sorted_id_strict, NoDup_fst_map_to_list. Qed.

Lemma bucket_texts (l : list box) (k : Z) :
  List.map item_text (bucket l k)
  = List.map b_text
      (List.filter (fun b => row_key (b_y b) =? k) (List.filter qualifies l)).
Proof.
  unfold bucket. rewrite List.map_map. simpl.
  induction l as [|b l IH]; simpl; [done|].
  destruct (qualifies b); simpl; [|done].
  destruct (row_key (b_y b) =? k); simpl; by rewrite IH.
Qed.

(** The table holds the texts of exactly the tuples that pass the test of
    line 111, each once. *)
Lemma sorted_rows_keeps (boxes : list box) :
  concat (sorted_rows (group_rows boxes))
  ≡ₚ List.map b_text (List.filter qualifies boxes).
Proof.
  unfold sorted_rows.
  set (l := boxes). set (rows := group_rows boxes).
  rewrite (concat_map_perm _
             (fun k => List.map b_text
                (List.filter (fun b => row_key (b_y b) =? k)
                   (List.filter qualifies l)))).
  2:{ intros k. rewrite <- bucket_texts. unfold row_data, rows.
      by rewrite (sorted_perm item_x), group_rows_lookup_total. }
  etrans; [|apply Permutation_map,
               (concat_classes_perm (fun b => row_key (b_y b))
                  (sorted_keys rows) (List.filter qualifies l))].
  - rewrite concat_map, List.map_map. reflexivity.
  - unfold sorted_keys. rewrite (sorted_perm id).
    apply NoDup_fst_map_to_list.
  - intros b Hb. apply sorted_keys_elem. subst l rows.
    rewrite group_rows_lookup.
    assert (Hin : In (to_item b) (bucket boxes (row_key (b_y b)))).
    { unfold bucket. apply in_map, filter_In.
      apply filter_In in Hb as [Hb Hq]. split; [done|].
      by rewrite Hq, Z.eqb_refl. }
    destruct (bucket boxes (row_key (b_y b))); [destruct Hin|]. by eexists.
Qed.

(** ** Running the extractors *)

Ltac run := unfold bind, try_except, lift, ret, raise, log, emit in *.

Section OcrRuns.
Context {E : OcrEnv}.

Lemma _preprocess_image_run (img : Image) (t : trace) :
  _preprocess_image img t =
  match preprocess_steps img with
  | Ok img' => (Ok img', t)
  | Raise e => (Ok img, t ++ [preprocessing_warning e])
  end.
Proof. unfold _preprocess_image. run. by destruct (preprocess_steps img). Qed.

Lemma extract_text_from_image_run (self : OCRProcessor) (src : image_source E)
    (t : trace) :
  extract_text_from_image self src t =
  let failed e t' :=
    (Ok (failed_text self e),
     t' ++ [Log ERROR "Error extracting text from image: {}" [A_exn e]]) in
  match prepare self src t with
  | (Raise e, t1) => failed e t1
  | (Ok img, t1) =>
      match image_to_string img (language self) with
      | Raise e => failed e t1
      | Ok text =>
          match image_to_data img (language self) with
          | Raise e => failed e t1
          | Ok data =>
              match getitem "confidence" (col_confidence data) with
              | Raise e => failed e t1
              | Ok confidence_column =>
                  (Ok {| tr_text := strip text;
                         tr_confidence := score confidence_column;
                         tr_word_count := count_words false text;
                         tr_language := language self;
                         tr_data := Some data;
                         tr_success := true;
                         tr_error := None |},
                   t1 ++ [Log INFO
                            "Extracted text from image with {} characters, confidence: {:.2f}%"
                            [A_int (Z.of_nat (String.length text));
                             A_num (score confidence_column)]])
              end
          end
      end
  end.
Proof.
  unfold extract_text_from_image. run.
  destruct (prepare self src t) as [[img|e] t1]; [|done].
  destruct (image_to_string img (language self)) as [text|e]; [|done].
  destruct (image_to_data img (language self)) as [data|e]; [|done].
  by destruct (getitem "confidence" (col_confidence data)).
Qed.

Lemma extract_table_data_run (self : OCRProcessor) (src : image_source E)
    (t : trace) :
  extract_table_data self src t =
  let failed e t' :=
    (Ok (failed_table e),
     t' ++ [Log ERROR "Error extracting table data: {}" [A_exn e]]) in
  match prepare self src t with
  | (Raise e, t1) => failed e t1
  | (Ok img, t1) =>
      match image_to_data img (language self) with
      | Raise e => failed e t1
      | Ok data =>
          match zip_boxes data with
          | Raise e => failed e t1
          | Ok boxes =>
              let table := sorted_rows (group_rows boxes) in
              (Ok {| tb_table := table; tb_row_count := length table;
                     tb_success := true; tb_error := None |},
               t1 ++ [Log INFO "Extracted table with {} rows"
                        [A_int (Z.of_nat (length table))]])
          end
      end
  end.
Proof.
  unfold extract_table_data. run.
  destruct (prepare self src t) as [[img|e] t1]; [|done].
  destruct (image_to_data img (language self)) as [data|e]; [|done].
  by destruct (zip_boxes data).
Qed.
End OcrRuns.

Example table_boxes4 :
  sorted_rows (group_rows Stub.boxes4) = [["AB"; "12"]]%string.
Proof. vm_compute. reflexivity. Qed.

(** On a dict that has the key of the source the table is built. *)
Example table_run_renamed :
  (@extract_table_data Stub.renamed OCRProcessor_default (SrcStr "captcha.png") []).1
  = Ok {| tb_table := [["AB"; "12"]]%string; tb_row_count := 1;
          tb_success := true; tb_error := None |}.
Proof. vm_compute. reflexivity. Qed.

(** ** The table *)

Lemma bucket_of_none (l : list box) (k : Z) :
  List.filter qualifies l = [] -> bucket l k = [].
Proof.
  unfold bucket. induction l as [|b l IH]; simpl; [done|].
  destruct (qualifies b); simpl; [done|]. intros H. by apply IH.
Qed.

Lemma sorted_keys_bucket (boxes : list box) (k : Z) :
  In k (sorted_keys (group_rows boxes)) <-> bucket boxes k <> [].
Proof.
  rewrite sorted_keys_elem, group_rows_lookup.
  destruct (bucket boxes k); split; done.
Qed.

Lemma sorted_rows_of_none (boxes : list box) :
  List.filter qualifies boxes = [] ->
  sorted_rows (group_rows boxes) = [].
Proof.
  intros Hnone. unfold sorted_rows.
  destruct (sorted_keys (group_rows boxes)) as [|k ks] eqn:Hks; [done|].
  assert (Hin : In k (sorted_keys (group_rows boxes))) by (rewrite Hks; by left).
  apply sorted_keys_bucket in Hin. destruct Hin. by apply bucket_of_none.
Qed.

(** A blank text with a confidence passes the design document's test and
    not the code's: the box is dropped although its confidence is above zero
    and its text is not empty. *)
Lemma blank_token_is_dropped :
  List.map b_text (List.filter doc_keeps Stub.blank) = [" "%string]
  /\ List.map b_text (List.filter qualifies Stub.blank) = []
  /\ sorted_rows (group_rows Stub.blank) = []
  /\ ~ (concat (sorted_rows (group_rows Stub.blank))
        ≡ₚ List.map b_text (List.filter doc_keeps Stub.blank)).
Proof.
  split; [reflexivity|]. split; [reflexivity|].
  assert (Hrows : sorted_rows (group_rows Stub.blank) = [])
    by (vm_compute; reflexivity).
  split; [exact Hrows|].
  rewrite Hrows. simpl. intros Hp. by apply Permutation_nil in Hp.
Qed.

(** What lines 106-122 do with the tuples they are given. The table holds
    exactly the boxes whose confidence is above zero and whose text is not
    blank (not empty once the surrounding white space is stripped). Its rows
    are those of the keys in strictly increasing order, one row per key that
    some kept box has; a row lists the texts of the kept boxes of its key in
    non-decreasing [x]. With no kept box the table is empty, and
    [extract_table_data] returns it with [success] true when the dict has
    the six keys. *)
Lemma table_rows_ordered (boxes : list box) :
  let rows := group_rows boxes in
  concat (sorted_rows rows)
    ≡ₚ List.map b_text (List.filter qualifies boxes)
  /\ (forall b, qualifies b = true
                <-> 0 < b_conf b /\ strip (b_text b) <> EmptyString)
  /\ sorted_rows rows
     = List.map (fun k => List.map item_text (row_data rows k)) (sorted_keys rows)
  /\ StronglySorted Z.lt (sorted_keys rows)
  /\ (forall k, In k (sorted_keys rows) <-> bucket boxes k <> [])
  /\ (forall k, Sorted (key_le item_x) (row_data rows k)
                /\ row_data rows k ≡ₚ bucket boxes k)
  /\ (List.filter qualifies boxes = [] -> sorted_rows rows = [])
  /\ (forall (E : OcrEnv) self src t img t1 data,
         prepare self src t = (Ok img, t1) ->
         image_to_data img (language self) = Ok data ->
         zip_boxes data = Ok boxes ->
         List.filter qualifies boxes = [] ->
         (extract_table_data self src t).1
         = Ok {| tb_table := []; tb_row_count := 0;
                 tb_success := true; tb_error := None |}).
Proof.
  intros rows. subst rows.
  split; [apply sorted_rows_keeps|].
  split.
  { intros b. unfold qualifies. rewrite andb_true_iff, Z.ltb_lt.
    destruct (strip (b_text b)); simpl; split; intros [? ?]; done. }
  split; [reflexivity|].
  split; [apply sorted_keys_strict|].
  split; [apply sorted_keys_bucket|].
  split.
  { intros k. unfold row_data. split; [apply sorted_Sorted|].
    by rewrite (sorted_perm item_x), group_rows_lookup_total. }
  split; [apply sorted_rows_of_none|].
  intros E self src t img t1 data Hprep Hdata Hzip Hnone.
  rewrite extract_table_data_run, Hprep, Hdata. simpl. rewrite Hzip. simpl.
  by rewrite (sorted_rows_of_none boxes Hnone).
Qed.

(** ** The confidence score *)

Lemma fold_add_shift (l : list Z) (a : Z) :
  fold_left Z.add l a = a + fold_left Z.add l 0.
Proof.
  revert a. induction l as [|c l IH]; intros a; simpl; [lia|].
  rewrite (IH (a + c)), (IH (0 + c)). lia.
Qed.

Lemma sum_cons (c : Z) (l : list Z) : sum (c :: l) = c + sum l.
Proof. unfold sum. simpl. apply fold_add_shift. Qed.

Lemma sum_positive (l : list Z) :
  sum (List.filter (fun conf => 0 <? conf) l) = pos_sum l.
Proof.
  induction l as [|c l IH]; simpl; [done|].
  destruct (0 <? c); [|done]. by rewrite sum_cons, IH.
Qed.

Lemma length_positive (l : list Z) :
  Z.of_nat (length (List.filter (fun conf => 0 <? conf) l)) = pos_count l.
Proof.
  induction l as [|c l IH]; simpl; [done|].
  destruct (0 <? c); [|done]. simpl length. lia.
Qed.

Lemma pos_count_nonneg (l : list Z) : 0 <= pos_count l.
Proof. induction l as [|c l IH]; simpl; [lia|]. destruct (0 <? c); lia. Qed.

Lemma pos_sum_lower (l : list Z) : pos_count l <= pos_sum l.
Proof.
  induction l as [|c l IH]; simpl; [lia|].
  destruct (Z.ltb_spec 0 c); lia.
Qed.

Lemma pos_sum_upper (l : list Z) :
  Forall (fun c => c <= 100) l -> pos_sum l <= 100 * pos_count l.
Proof.
  induction 1 as [|c l Hc Hl IH]; simpl; [lia|].
  destruct (0 <? c); lia.
Qed.

Lemma score_unfold (col : list Z) :
  score col = if pos_count col =? 0 then 0%Q
              else truediv (pos_sum col) (pos_count col).
Proof.
  unfold score. rewrite <- sum_positive, <- length_positive.
  by destruct (List.filter _ col).
Qed.

(** What lines 61-62 compute on the column they are given: the sum of the
    confidences above zero divided by their number, 0 when there is none,
    never a negative number, and at most 100 when no confidence exceeds
    100. *)
Lemma score_is_mean_of_positive (confidence_column : list Z) :
  (pos_count confidence_column <> 0 ->
   (score confidence_column
    == inject_Z (pos_sum confidence_column)
       / inject_Z (pos_count confidence_column))%Q)
  /\ (pos_count confidence_column = 0 -> score confidence_column = 0%Q)
  /\ (0 <= score confidence_column)%Q
  /\ (Forall (fun c => c <= 100) confidence_column ->
      (score confidence_column <= 100)%Q).
Proof.
  rewrite score_unfold.
  pose proof (pos_count_nonneg confidence_column) as Hn.
  pose proof (pos_sum_lower confidence_column) as Hlo.
  destruct (Z.eqb_spec (pos_count confidence_column) 0) as [H0|Hpos].
  - repeat split; done.
  - assert (Hq : (0 < inject_Z (pos_count confidence_column))%Q).
    { rewrite <- (Zlt_Qlt 0). lia. }
    unfold truediv. repeat split; try done.
    + apply Qle_shift_div_l; [done|]. rewrite Qmult_0_l.
      rewrite <- (Zle_Qle 0). lia.
    + intros Hall. apply Qle_shift_div_r; [done|].
      change 100%Q with (inject_Z 100). rewrite <- inject_Z_mult, <- Zle_Qle.
      by apply pos_sum_upper.
Qed.

(** ** Preprocessing *)

Section Preprocessing.
Context {E : OcrEnv}.

(** The body of the [try] raises exactly when one of its steps does. *)
Lemma step_fails_iff (img : Image) (e : exn) :
  step_fails img e <-> preprocess_steps img = Raise e.
Proof.
  unfold preprocess_steps. split.
  - intros [H1|a H1 H2|a g H1 H2 H3|a g b H1 H2 H3 H4
           |a g b d H1 H2 H3 H4 H5|a g b d u H1 H2 H3 H4 H5 H6];
      repeat match goal with H : _ = _ |- _ => rewrite H; clear H; simpl end;
      done.
  - destruct (np_array img) as [a|] eqn:H1; simpl;
      [|intros [= ->]; by apply fails_array].
    destruct (grayscale a) as [g|] eqn:H2; simpl;
      [|intros [= ->]; by eapply fails_grayscale].
    destruct (binarize g) as [b|] eqn:H3; simpl;
      [|intros [= ->]; by eapply fails_binarize].
    destruct (denoise b) as [d|] eqn:H4; simpl;
      [|intros [= ->]; by eapply fails_denoise].
    destruct (upscale d) as [u|] eqn:H5; simpl;
      [|intros [= ->]; by eapply fails_upscale].
    intros H6. by eapply fails_fromarray.
Qed.

Lemma prepare_run (self : OCRProcessor) (src : image_source E) (t : trace) :
  prepare self src t =
  match _load_image src with
  | Raise e => (Raise e, t)
  | Ok img =>
      if enable_preprocessing self then _preprocess_image img t
      else (Ok img, t)
  end.
Proof.
  unfold prepare. run. destruct (_load_image src); [|done].
  by destruct (enable_preprocessing self).
Qed.
End Preprocessing.

(** C7. [_preprocess_image] returns an image whatever happens inside it;
    when an internal step fails it returns the image it was given and logs
    one warning; and the extraction then goes on with that image. *)
Theorem preprocess_falls_back (E : OcrEnv) (img : Image) (t : trace) :
  (exists img' t', _preprocess_image img t = (Ok img', t'))
  /\ (forall e, step_fails img e ->
        _preprocess_image img t = (Ok img, t ++ [preprocessing_warning e]))
  /\ (forall e self src,
        enable_preprocessing self = true ->
        _load_image src = Ok img ->
        step_fails img e ->
        prepare self src t = (Ok img, t ++ [preprocessing_warning e])).
Proof.
  split; [|split].
  - rewrite _preprocess_image_run. destruct (preprocess_steps img); eauto.
  - intros e He. apply step_fails_iff in He.
    by rewrite _preprocess_image_run, He.
  - intros e self src Hen Hload He. apply step_fails_iff in He.
    by rewrite prepare_run, Hload, Hen, _preprocess_image_run, He.
Qed.

Lemma preprocess_falls_back_witness :
  @_preprocess_image Stub.no_denoise [60; 200] []
  = (Ok [60; 200], [preprocessing_warning Stub.cv2_error])
  /\ @prepare Stub.no_denoise OCRProcessor_default
       (@SrcImage Stub.no_denoise [60; 200]) []
     = (Ok [60; 200], [preprocessing_warning Stub.cv2_error]).
Proof.
  destruct (preprocess_falls_back Stub.no_denoise [60; 200] []) as (_ & H & H').
  assert (Hf : @step_fails Stub.no_denoise [60; 200] Stub.cv2_error).
  { eapply fails_denoise; reflexivity. }
  split; [exact (H _ Hf)|].
  apply H'; [reflexivity | reflexivity | exact Hf].
Defined.




(** The steps are taken in the order grey, threshold 150, denoise, upscale. *)
Example preprocess_small :
  @preprocess_steps Stub.working [60; 200; 3] = Ok [120; 400].
Proof. reflexivity. Qed.

Example preprocess_large :
  @preprocess_steps Stub.working [300; 200] = Ok [300; 200].
Proof. reflexivity. Qed.

(** ** Loading *)

(** C8. A text that begins with [/] or [.] is opened as a file path. Any
    other text is first decoded as base64 and the bytes opened as an image;
    when the decoding or the opening fails, the text is opened as a file
    path. *)
Theorem load_image_text (E : OcrEnv) (s : string) :
  (startswith s "/" = true \/ startswith s "." = true ->
   _load_image (SrcStr s) = Image_open_path s)
  /\ (startswith s "/" = false -> startswith s "." = false ->
      (forall img_data img,
          b64decode s = Ok img_data -> Image_open_bytes img_data = Ok img ->
          _load_image (SrcStr s) = Ok img)
      /\ (forall e,
          b64decode s = Raise e ->
          _load_image (SrcStr s) = Image_open_path s)
      /\ (forall img_data e,
          b64decode s = Ok img_data -> Image_open_bytes img_data = Raise e ->
          _load_image (SrcStr s) = Image_open_path s)).
Proof.
  unfold _load_image. split.
  - by intros [-> | ->]; rewrite ?orb_true_r.
  - intros -> ->. simpl. split; [|split].
    + intros img_data img H1 H2. rewrite H1. simpl. by rewrite H2.
    + intros e H1. by rewrite H1.
    + intros img_data e H1 H2. rewrite H1. simpl. by rewrite H2.
Qed.

Lemma load_image_text_witness :
  @_load_image Stub.working (SrcStr "/tmp/captcha.png") = Ok [60; 200]
  /\ @_load_image Stub.working (SrcStr "iVBORw==") = Ok [60; 200]
  /\ @_load_image Stub.working (SrcStr "captcha.png")
     = @Image_open_path Stub.working "captcha.png"
  /\ @_load_image Stub.working (SrcStr "bases.pdf")
     = Raise (mk_exn "FileNotFoundError" "No such file or directory")
  /\ @_load_image Stub.working (SrcStr "AAAA")
     = @Image_open_path Stub.working "AAAA".
Proof.
  split; [|split; [|split; [|split]]].
  - destruct (load_image_text Stub.working "/tmp/captcha.png") as [H _].
    rewrite H; [reflexivity | by left].
  - destruct (load_image_text Stub.working "iVBORw==") as [_ H].
    destruct (H eq_refl eq_refl) as (H1 & _).
    eapply H1; reflexivity.
  - destruct (load_image_text Stub.working "captcha.png") as [_ H].
    destruct (H eq_refl eq_refl) as (_ & H2 & _).
    eapply H2. reflexivity.
  - destruct (load_image_text Stub.working "bases.pdf") as [_ H].
    destruct (H eq_refl eq_refl) as (_ & H2 & _).
    erewrite H2; reflexivity.
  - destruct (load_image_text Stub.working "AAAA") as [_ H].
    destruct (H eq_refl eq_refl) as (_ & _ & H3).
    eapply H3; reflexivity.
Defined.

(** ** The engine is missing *)

(** With no OCR engine the call returns: the error is caught and turned
    into a result with [success] false. Nothing reaches the caller as an
    exception. *)
Lemma missing_engine_is_recovered :
  @image_to_string Stub.no_engine [60; 200] "spa" = Raise Stub.tesseract_missing
  /\ (@extract_text_from_image Stub.no_engine OCRProcessor_default
        (@SrcImage Stub.no_engine [60; 200]) []).1
     = Ok (failed_text OCRProcessor_default Stub.tesseract_missing)
  /\ (@extract_text_from_image Stub.no_engine OCRProcessor_default
        (@SrcImage Stub.no_engine [60; 200]) []).1
     <> Raise Stub.tesseract_missing.
Proof. split; [reflexivity|]. split; [reflexivity|]. discriminate. Qed.

(** C3, amended. [extract_text_from_image] raises nothing. When the OCR
    engine cannot be reached (either of its two calls raises), the error is
    logged and the call returns the failed result: empty text, confidence 0,
    [success] false and the message of the exception under [error]. *)
Theorem unavailable_engine_gives_failed_result (E : OcrEnv)
    (self : OCRProcessor) (src : image_source E) (t : trace) :
  (exists r t', extract_text_from_image self src t = (Ok r, t'))
  /\ (forall img t1 e,
        prepare self src t = (Ok img, t1) ->
        image_to_string img (language self) = Raise e
        \/ (exists text, image_to_string img (language self) = Ok text
                         /\ image_to_data img (language self) = Raise e) ->
        extract_text_from_image self src t
        = (Ok (failed_text self e),
           t1 ++ [Log ERROR "Error extracting text from image: {}" [A_exn e]])).
Proof.
  rewrite extract_text_from_image_run. simpl. split.
  - destruct (prepare self src t) as [[img|e] t1]; [|eauto].
    destruct (image_to_string img (language self)); [|eauto].
    destruct (image_to_data img (language self)) as [data|]; [|eauto].
    destruct (getitem "confidence" (col_confidence data)); eauto.
  - intros img t1 e -> [-> | (text & -> & ->)]; done.
Qed.

(** The module's own check for the engine answers [False] in the same way. *)
Example validate_without_engine :
  @validate_tesseract Stub.no_engine []
  = (Ok false, [Log ERROR "Tesseract is not installed or not found in PATH" []]).
Proof. reflexivity. Qed.

Lemma unavailable_engine_gives_failed_result_witness :
  @extract_text_from_image Stub.no_engine OCRProcessor_default
    (@SrcImage Stub.no_engine [60; 200]) []
  = (Ok (failed_text OCRProcessor_default Stub.tesseract_missing),
     [Log ERROR "Error extracting text from image: {}"
        [A_exn Stub.tesseract_missing]]).
Proof.
  destruct (unavailable_engine_gives_failed_result Stub.no_engine
              OCRProcessor_default (@SrcImage Stub.no_engine [60; 200]) [])
    as [_ H].
  apply (H [120; 400] [] Stub.tesseract_missing); [reflexivity|].
  left. reflexivity.
Defined.

(** ** The key of the confidences *)

(** The source reads the confidences under ['confidence']; the dict of the
    engine has them under ['conf']. *)
Lemma confidence_key_missing (data : TessData) :
  pytesseract_keys data ->
  getitem "confidence" (col_confidence data) = Raise (key_error "confidence").
Proof. intros (_ & _ & _ & _ & _ & _ & ->). reflexivity. Qed.

Lemma zip_boxes_key_missing (data : TessData) :
  pytesseract_keys data -> zip_boxes data = Raise (key_error "confidence").
Proof.
  intros ([lefts Hl] & [tops Ht] & [widths Hw] & [heights Hh] & _ & _ & Hc).
  unfold zip_boxes. by rewrite Hl, Ht, Hw, Hh, Hc.
Qed.

Lemma stub_data4_keys : pytesseract_keys Stub.data4.
Proof. repeat split; by eexists. Qed.

Example key_error_str : exn_str (key_error "confidence") = "'confidence'"%string.
Proof. reflexivity. Qed.

(** C1. On the dict of a working engine the subscript of line 61 raises
    [KeyError]: the average of lines 61-62 is never computed, and
    [extract_text_from_image] returns the failed result, with confidence 0
    and [error] ['confidence'], whatever confidences the boxes have. *)
Theorem engine_dict_gives_no_score (E : OcrEnv) (self : OCRProcessor)
    (src : image_source E) (t t1 : trace) (img : Image) (text : string)
    (data : TessData) :
  prepare self src t = (Ok img, t1) ->
  image_to_string img (language self) = Ok text ->
  image_to_data img (language self) = Ok data ->
  pytesseract_keys data ->
  extract_text_from_image self src t
  = (Ok (failed_text self (key_error "confidence")),
     t1 ++ [Log ERROR "Error extracting text from image: {}"
              [A_exn (key_error "confidence")]])
  /\ tr_confidence (failed_text self (key_error "confidence")) = 0%Q
  /\ tr_success (failed_text self (key_error "confidence")) = false
  /\ tr_error (failed_text self (key_error "confidence"))
     = Some "'confidence'"%string.
Proof.
  intros Hprep Htext Hdata Hkeys.
  rewrite extract_text_from_image_run, Hprep, Htext, Hdata. simpl.
  by rewrite (confidence_key_missing data Hkeys).
Qed.

(** The engine reads "AB 12" with confidences 88, 96 and 95, whose mean is
    93; the call returns confidence 0 and [success] false. *)
Lemma engine_dict_gives_no_score_witness :
  (score [88; 96; 95; -1]%Z == 93)%Q
  /\ (@extract_text_from_image Stub.working OCRProcessor_default
        (@SrcImage Stub.working [60; 200]) []).1
     = Ok (failed_text OCRProcessor_default (key_error "confidence")).
Proof.
  split; [reflexivity|].
  destruct (engine_dict_gives_no_score Stub.working OCRProcessor_default
              (@SrcImage Stub.working [60; 200]) [] [] [120; 400]
              "AB 12" Stub.data4 eq_refl eq_refl eq_refl stub_data4_keys)
    as [H _].
  by rewrite H.
Defined.

(** C5. On the dict of a working engine the zip of lines 107-110 raises
    [KeyError] at its fifth subscript, before the loop is entered: no token
    is given a row key or put in a bucket, and the table that
    [extract_table_data] returns is empty. *)
Theorem engine_dict_reaches_no_bucket (E : OcrEnv) (self : OCRProcessor)
    (src : image_source E) (t t1 : trace) (img : Image) (data : TessData) :
  prepare self src t = (Ok img, t1) ->
  image_to_data img (language self) = Ok data ->
  pytesseract_keys data ->
  zip_boxes data = Raise (key_error "confidence")
  /\ exists r t',
       extract_table_data self src t = (Ok r, t') /\ tb_table r = [].
Proof.
  intros Hprep Hdata Hkeys.
  split; [by apply zip_boxes_key_missing|].
  rewrite extract_table_data_run, Hprep, Hdata. simpl.
  rewrite (zip_boxes_key_missing data Hkeys). by eexists _, _.
Qed.

(** The boxes at y = 100 and y = 104 would share the row of key 100; the
    table comes back empty. *)
Lemma engine_dict_reaches_no_bucket_witness :
  row_key 100 = row_key 104
  /\ zip_boxes Stub.data4 = Raise (key_error "confidence")
  /\ exists r t',
       @extract_table_data Stub.working OCRProcessor_default
         (@SrcImage Stub.working [60; 200]) [] = (Ok r, t')
       /\ tb_table r = [].
Proof.
  split; [reflexivity|].
  apply (engine_dict_reaches_no_bucket Stub.working OCRProcessor_default
           (@SrcImage Stub.working [60; 200]) [] [] [120; 400] Stub.data4);
    [reflexivity | reflexivity | exact stub_data4_keys].
Defined.

(** C6. On the dict of a working engine [extract_table_data] returns the
    failed result, [success] false with [error] ['confidence'] and one error
    logged, whether or not a token would qualify: nothing is filtered, put
    in order or returned as an empty table with [success] true. *)
Theorem engine_dict_gives_failed_table (E : OcrEnv) (self : OCRProcessor)
    (src : image_source E) (t t1 : trace) (img : Image) (data : TessData) :
  prepare self src t = (Ok img, t1) ->
  image_to_data img (language self) = Ok data ->
  pytesseract_keys data ->
  extract_table_data self src t
  = (Ok {| tb_table := []; tb_row_count := 0; tb_success := false;
           tb_error := Some "'confidence'"%string |},
     t1 ++ [Log ERROR "Error extracting table data: {}"
              [A_exn (key_error "confidence")]]).
Proof.
  intros Hprep Hdata Hkeys.
  rewrite extract_table_data_run, Hprep, Hdata. simpl.
  by rewrite (zip_boxes_key_missing data Hkeys).
Qed.

Lemma engine_dict_gives_failed_table_witness :
  @extract_table_data Stub.working OCRProcessor_default
    (@SrcImage Stub.working [60; 200]) []
  = (Ok {| tb_table := []; tb_row_count := 0; tb_success := false;
           tb_error := Some "'confidence'"%string |},
     [Log ERROR "Error extracting table data: {}"
        [A_exn (key_error "confidence")]]).
Proof.
  apply (engine_dict_gives_failed_table Stub.working OCRProcessor_default
           (@SrcImage Stub.working [60; 200]) [] [] [120; 400] Stub.data4);
    [reflexivity | reflexivity | exact stub_data4_keys].
Defined.

(** ** The CAPTCHA solver *)

Lemma solve_calls_app (t u : trace) :
  solve_calls (t ++ u) = (solve_calls t + solve_calls u)%nat.
Proof. unfold solve_calls. by rewrite List.filter_app, length_app. Qed.

Lemma solve_calls_log lv template args :
  solve_calls [Log lv template args] = 0%nat.
Proof. reflexivity. Qed.

(** Splits on the outcome of the next library call. *)
Ltac step :=
  match goal with
  | |- context [match ?x with _ => _ end] =>
      lazymatch x with
      | context [match _ with _ => _ end] => fail
      | _ => destruct x eqn:?; simpl
      end
  end.

Section Solver.
Context {E : OcrEnv} {P : Page}.

(** The method the solver calls is not one the class has. *)
Lemma extract_text_not_defined :
  existsb (String.eqb "extract_text") OCRProcessor_attributes = false.
Proof. reflexivity. Qed.

(** With an instance of [OCRProcessor] itself the extraction gives [None]. *)
Lemma _extract_captcha_text_Instance (p : OCRProcessor) (base : string)
    (t : trace) :
  exists u,
    _extract_captcha_text {| ocr_processor := Instance p; base_url := base |} t
    = (Ok None, t ++ u).
Proof.
  unfold _extract_captcha_text, _download_image. run. simpl.
  repeat step; rewrite <- ?app_assoc; try (eexists; reflexivity);
    exists []; by rewrite app_nil_r.
Qed.
End Solver.

(** C10. With an [OCRProcessor] as its OCR processor, which is what the
    constructor builds by default, [solve] returns [False] on every page:
    the class has no [extract_text], the call raises [AttributeError]
    whenever it is reached, [_extract_captcha_text] returns [None], and
    [solve] ends on the warning of its empty-candidate branch. *)
Theorem solve_with_OCRProcessor_is_false (E : OcrEnv) (P : Page)
    (p : OCRProcessor) (base input_id : string) (t : trace) :
  let self := {| ocr_processor := Instance p; base_url := base |} in
  existsb (String.eqb "extract_text") OCRProcessor_attributes = false
  /\ ocr_processor (new_CaptchaSolver None) = Instance OCRProcessor_default
  /\ (forall img, call_extract_text (Instance p) img = Raise attribute_error)
  /\ (exists u, _extract_captcha_text self t = (Ok None, t ++ u))
  /\ (exists u,
         solve self input_id t
         = (Ok false,
            t ++ [Enter "CaptchaSolver.solve"] ++ u
              ++ [Log WARNING "Failed to extract CAPTCHA text" []])).
Proof.
  intros self. split; [apply extract_text_not_defined|].
  split; [reflexivity|].
  split; [reflexivity|]. split; [apply _extract_captcha_text_Instance|].
  destruct (_extract_captcha_text_Instance p base
              (t ++ [Enter "CaptchaSolver.solve"])) as [u Hu].
  exists u. unfold solve. run. fold self in Hu. rewrite Hu.
  by rewrite <- !app_assoc.
Qed.

(** When the extraction gives a non-empty text, [solve] returns [True]
    whatever becomes of the input: the value of [_input_captcha_text] is
    dropped, and that method raises nothing. *)
Lemma solve_true_after_extraction (E : OcrEnv) (P : Page)
    (self : CaptchaSolver E) (input_id text : string) (t t1 : trace) :
  _extract_captcha_text self (t ++ [Enter "CaptchaSolver.solve"])
  = (Ok (Some text), t1) ->
  truthy text = true ->
  exists t', solve self input_id t = (Ok true, t').
Proof.
  intros Hex Htext. unfold solve. run. rewrite Hex, Htext.
  unfold _input_captcha_text. run. simpl.
  repeat step; eauto.
Qed.

(** C2. A processor that reads "AB12", a page whose CAPTCHA image downloads,
    and no input field under either locator: [_input_captcha_text] logs the
    error and returns [False], nothing is typed, and [solve] logs "CAPTCHA
    solved" and returns [True], where the design document and the docstring
    of [solve] have it return [False]. *)
Theorem solve_true_although_input_failed :
  let P := @Stub.page Stub.working (Raise Stub.no_such_element) in
  let self := new_CaptchaSolver (Some (@Stub.reader Stub.working (Some "AB12"%string))) in
  @_extract_captcha_text Stub.working P self [] = (Ok (Some "AB12"%string), [])
  /\ (@_input_captcha_text Stub.working P "AB12" default_input_id []).1 = Ok false
  /\ @solve Stub.working P self default_input_id []
     = (Ok true,
        [Enter "CaptchaSolver.solve";
         Log ERROR "Error inputting CAPTCHA text: {}" [A_exn Stub.no_such_element];
         Log INFO "CAPTCHA solved: {}" [A_str "AB12"]]).
Proof. repeat split. Qed.

(** With the input field in place the same run types the text. *)
Example solve_types_text :
  let P := @Stub.page Stub.working (Ok tt) in
  let self := new_CaptchaSolver (Some (@Stub.reader Stub.working (Some " AB12 "%string))) in
  @solve Stub.working P self default_input_id []
  = (Ok true,
     [Enter "CaptchaSolver.solve"; Cleared; SentKeys "AB12";
      Log DEBUG "Entered CAPTCHA text into field {}" [A_str "DWNL$ctl10"];
      Log INFO "CAPTCHA solved: {}" [A_str "AB12"]]).
Proof. reflexivity. Qed.

(** ** One attachment, one attempt *)

Section Attempts.
Context {E : OcrEnv}.

Lemma solve_calls_once (P : Page) (self : CaptchaSolver E) (input_id : string)
    (t : trace) :
  exists r u, solve self input_id t = (Ok r, t ++ u) /\ solve_calls u = 1%nat.
Proof.
  unfold solve, _extract_captcha_text, _input_captcha_text, _download_image.
  run. simpl.
  repeat step; rewrite <- ?app_assoc; simpl;
    eexists _, _; (split; [reflexivity|reflexivity]).
Qed.

Lemma click_download_calls (P : Page) (w : Web E) (t : trace) :
  exists r u, click_download w t = (r, t ++ u) /\ solve_calls u = 0%nat.
Proof.
  unfold click_download, _get_latest_download. run. simpl.
  repeat step; rewrite <- ?app_assoc; simpl;
    eexists _, _;
    (split; [try reflexivity; by rewrite (app_nil_r t)|reflexivity]).
Qed.
End Attempts.

(** The downloader driven against a processor that always reads an empty
    text, on a page with a CAPTCHA: one call of [solve], not three, and the
    attachment is given up. *)
Lemma one_attempt_not_three :
  let P := @Stub.page Stub.working (Ok tt) in
  let self := {| captcha_solver :=
                   new_CaptchaSolver (Some (@Stub.reader Stub.working (Some EmptyString))) |} in
  let out := @_download_attachment Stub.working self (Stub.web P)
               "https://www.mercadopublico.cl/ViewBidAttachment.aspx" [] in
  out = (Ok None,
         [Log INFO "CAPTCHA detected, attempting to solve..." [];
          Enter "CaptchaSolver.solve";
          Log WARNING "Failed to extract CAPTCHA text" [];
          Log WARNING "Failed to solve CAPTCHA" []])
  /\ solve_calls out.2 = 1%nat
  /\ solve_calls out.2 <> 3%nat.
Proof. repeat split. discriminate. Qed.

(** C4, amended. [_download_attachment] calls [solve] once when the page it
    reaches shows a CAPTCHA and not at all otherwise; when that call returns
    [False] it logs a warning and returns [None], without another attempt. *)
Theorem download_attachment_solves_once (E : OcrEnv)
    (self : MercadoPublicoDownloader E) (w : Web E) (url : string) (t : trace) :
  let out := _download_attachment self w url t in
  (forall page, driver_get w url = Ok page ->
     solve_calls out.2
     = (solve_calls t + if @_has_captcha E page then 1 else 0)%nat)
  /\ (forall e, driver_get w url = Raise e -> solve_calls out.2 = solve_calls t)
  /\ (forall page t1,
        driver_get w url = Ok page ->
        @_has_captcha E page = true ->
        @solve E page (captcha_solver self) default_input_id
          (t ++ [Log INFO "CAPTCHA detected, attempting to solve..." []])
        = (Ok false, t1) ->
        out = (Ok None, t1 ++ [Log WARNING "Failed to solve CAPTCHA" []])).
Proof.
  intros out. subst out. unfold _download_attachment. run.
  split; [|split].
  - intros page ->.
    destruct (@_has_captcha E page).
    + destruct (solve_calls_once page (captcha_solver self) default_input_id
                  (t ++ [Log INFO "CAPTCHA detected, attempting to solve..." []]))
        as (r & u & -> & Hu).
      destruct r.
      * destruct (click_download_calls page w
                    ((t ++ [Log INFO "CAPTCHA detected, attempting to solve..." []])
                       ++ u)) as ([o|e] & v & -> & Hv); simpl;
          rewrite !solve_calls_app, ?solve_calls_log, ?Hu, ?Hv; lia.
      * simpl. rewrite !solve_calls_app, !solve_calls_log, Hu. lia.
    + destruct (click_download_calls page w t) as ([o|e] & v & -> & Hv); simpl;
        rewrite !solve_calls_app, ?solve_calls_log, ?Hv; lia.
  - intros e ->. simpl. rewrite solve_calls_app, solve_calls_log. lia.
  - intros page t1 -> -> ->. reflexivity.
Qed.

Lemma download_attachment_solves_once_witness :
  let P := @Stub.page Stub.working (Ok tt) in
  let self := {| captcha_solver :=
                   new_CaptchaSolver (Some (@Stub.reader Stub.working (Some EmptyString))) |} in
  let url := "https://www.mercadopublico.cl/ViewBidAttachment.aspx"%string in
  solve_calls (@_download_attachment Stub.working self (Stub.web P) url []).2 = 1%nat
  /\ (@_download_attachment Stub.working self (Stub.web P) url []).1 = Ok None.
Proof.
  intros P self url.
  destruct (download_attachment_solves_once Stub.working self (Stub.web P) url [])
    as (H1 & _ & H3).
  split.
  - rewrite (H1 P); reflexivity.
  - erewrite (H3 P); reflexivity.
Defined.

(** * Further properties *)

Import OcrRest CaptchaRest DownloaderRest SpecRest.

(** ** White space *)

Lemma lstrip_empty_iff (s : string) : lstrip s = EmptyString <-> all_space s = true.
Proof.
  induction s as [|c s IH]; simpl; [done|].
  destruct (is_space c); simpl; [done|]. split; discriminate.
Qed.

Lemma rstrip_empty_iff (s : string) : rstrip s = EmptyString <-> all_space s = true.
Proof.
  induction s as [|c s IH]; simpl; [done|].
  destruct (rstrip s) eqn:Hr.
  - destruct (is_space c); simpl; [tauto|]. split; discriminate.
  - split; [discriminate|]. rewrite andb_true_iff. intros [_ Hs].
    apply IH in Hs. discriminate.
Qed.

Lemma all_space_lstrip (s : string) : all_space (lstrip s) = all_space s.
Proof.
  induction s as [|c s IH]; simpl; [done|].
  destruct (is_space c) eqn:Hc; simpl; [done|]. by rewrite Hc.
Qed.

Lemma strip_empty_iff (s : string) : strip s = EmptyString <-> all_space s = true.
Proof. unfold strip. by rewrite rstrip_empty_iff, all_space_lstrip. Qed.

Lemma count_words_zero_iff (s : string) :
  count_words false s = 0%nat <-> all_space s = true.
Proof.
  induction s as [|c s IH]; simpl; [done|].
  destruct (is_space c); simpl; [done|]. split; discriminate.
Qed.

Lemma rstrip_idempotent (s : string) : rstrip (rstrip s) = rstrip s.
Proof.
  induction s as [|c s IH]; simpl; [done|].
  destruct (rstrip s) as [|d r] eqn:Hr.
  - destruct (is_space c) eqn:Hc; simpl; [done|]. by rewrite Hc.
  - change (rstrip (String c (String d r)) = String c (String d r)).
    simpl rstrip at 1. simpl in IH. by rewrite IH.
Qed.

Lemma lstrip_starts_clean (s : string) : starts_clean (lstrip s) = true.
Proof.
  induction s as [|c s IH]; simpl; [done|].
  destruct (is_space c) eqn:Hc; simpl; [done|]. by rewrite Hc.
Qed.

Lemma rstrip_starts_clean (s : string) :
  starts_clean s = true -> starts_clean (rstrip s) = true.
Proof.
  destruct s as [|c s]; simpl; [done|]. intros Hc.
  destruct (rstrip s); simpl; [|done].
  destruct (is_space c) eqn:Hs; simpl in *; [done|]. by rewrite Hs.
Qed.

Lemma lstrip_clean (s : string) : starts_clean s = true -> lstrip s = s.
Proof. destruct s as [|c s]; simpl; [done|]. by destruct (is_space c). Qed.

(** Stripping twice is stripping once: a stripped text has no white space
    at either end. *)
Lemma strip_idempotent (s : string) : strip (strip s) = strip s.
Proof.
  unfold strip.
  rewrite (lstrip_clean (rstrip (lstrip s))).
  - apply rstrip_idempotent.
  - apply rstrip_starts_clean, lstrip_starts_clean.
Qed.

Lemma truthy_iff (s : string) : truthy s = true <-> s <> EmptyString.
Proof. destruct s; simpl; split; try done. Qed.

(** ** The row key along the vertical axis *)

Lemma row_key_within_5 (y : Z) : Z.abs (row_key y - y) <= 5.
Proof.
  rewrite row_key_div_mod.
  pose proof (Z.div_mod y 10 ltac:(lia)).
  pose proof (Z.mod_pos_bound y 10 ltac:(lia)).
  destruct (Z.ltb_spec (y mod 10) 5), (Z.ltb_spec 5 (y mod 10)),
    (Z.even (y / 10)); lia.
Qed.

Lemma row_key_monotone (y1 y2 : Z) : y1 <= y2 -> row_key y1 <= row_key y2.
Proof.
  intros Hle. rewrite !row_key_div_mod.
  pose proof (Z.div_mod y1 10 ltac:(lia)).
  pose proof (Z.mod_pos_bound y1 10 ltac:(lia)).
  pose proof (Z.div_mod y2 10 ltac:(lia)).
  pose proof (Z.mod_pos_bound y2 10 ltac:(lia)).
  assert (Hq : y1 / 10 < y2 / 10 \/ y1 / 10 = y2 / 10).
  { pose proof (Z.div_le_mono y1 y2 10 ltac:(lia) Hle). lia. }
  destruct Hq as [Hq|Hq].
  - destruct (Z.ltb_spec (y1 mod 10) 5), (Z.ltb_spec 5 (y1 mod 10)),
      (Z.ltb_spec (y2 mod 10) 5), (Z.ltb_spec 5 (y2 mod 10)),
      (Z.even (y1 / 10)), (Z.even (y2 / 10)); lia.
  - rewrite Hq in *.
    destruct (Z.ltb_spec (y1 mod 10) 5), (Z.ltb_spec 5 (y1 mod 10)),
      (Z.ltb_spec (y2 mod 10) 5), (Z.ltb_spec 5 (y2 mod 10)),
      (Z.even (y2 / 10)); lia.
Qed.

(** ** The result of a text extraction *)

Section TextResults.
Context {E : OcrEnv}.

(** The events before a call change nothing in what [prepare] does. *)
Lemma prepare_appends (self : OCRProcessor) (src : image_source E) (t : trace) :
  prepare self src t
  = ((prepare self src []).1, t ++ (prepare self src []).2).
Proof.
  rewrite !prepare_run. destruct (_load_image src); [|by rewrite app_nil_r].
  destruct (enable_preprocessing self); [|by rewrite app_nil_r].
  rewrite !_preprocess_image_run.
  destruct (preprocess_steps a); [by rewrite app_nil_r|done].
Qed.

Lemma extract_text_from_image_appends (self : OCRProcessor)
    (src : image_source E) (t : trace) :
  extract_text_from_image self src t
  = ((extract_text_from_image self src []).1,
     t ++ (extract_text_from_image self src []).2).
Proof.
  rewrite !extract_text_from_image_run, (prepare_appends self src t). simpl.
  destruct (prepare self src []) as [[img|e] u]; simpl;
    [|by rewrite <- app_assoc].
  destruct (image_to_string img (language self)); [|by rewrite <- app_assoc].
  destruct (image_to_data img (language self)) as [data|];
    [|by rewrite <- app_assoc].
  destruct (getitem "confidence" (col_confidence data));
    by rewrite <- app_assoc.
Qed.

Lemma extract_text_from_image_total (self : OCRProcessor)
    (src : image_source E) (t : trace) :
  exists r, (extract_text_from_image self src t).1 = Ok r.
Proof.
  rewrite extract_text_from_image_run. simpl.
  destruct (prepare self src t) as [[img|e] t1]; [|eauto].
  destruct (image_to_string img (language self)); [|eauto].
  destruct (image_to_data img (language self)) as [data|]; [|eauto].
  destruct (getitem "confidence" (col_confidence data)); eauto.
Qed.
End TextResults.

(** X1. [extract_text_from_image] always returns a dict, and its fields
    agree: [language] is the processor's, [error] and [data] are present
    exactly on failure and on success, the text has no white space at either
    end and is empty exactly when [word_count] is 0, and a failure carries
    the empty text with confidence 0. *)
Theorem text_result_coherent (E : OcrEnv) (self : OCRProcessor)
    (src : image_source E) (t : trace) :
  exists r t',
    extract_text_from_image self src t = (Ok r, t')
    /\ tr_language r = language self
    /\ (tr_success r = true <-> tr_error r = None)
    /\ (tr_success r = true <-> tr_data r <> None)
    /\ strip (tr_text r) = tr_text r
    /\ (tr_text r = EmptyString <-> tr_word_count r = 0%nat)
    /\ (tr_success r = false ->
        tr_text r = EmptyString /\ tr_confidence r = 0%Q).
Proof.
  rewrite extract_text_from_image_run. simpl.
  assert (Hfail : forall e t1,
    exists r t',
      (Ok (failed_text self e),
       t1 ++ [Log ERROR "Error extracting text from image: {}" [A_exn e]])
      = (Ok r, t')
      /\ tr_language r = language self
      /\ (tr_success r = true <-> tr_error r = None)
      /\ (tr_success r = true <-> tr_data r <> None)
      /\ strip (tr_text r) = tr_text r
      /\ (tr_text r = EmptyString <-> tr_word_count r = 0%nat)
      /\ (tr_success r = false ->
          tr_text r = EmptyString /\ tr_confidence r = 0%Q)).
  { intros e t1. eexists _, _. split; [reflexivity|]. simpl.
    repeat split; try done. }
  destruct (prepare self src t) as [[img|e] t1]; [|apply Hfail].
  destruct (image_to_string img (language self)) as [text|e]; [|apply Hfail].
  destruct (image_to_data img (language self)) as [data|e]; [|apply Hfail].
  destruct (getitem "confidence" (col_confidence data)) as [column|e];
    [|apply Hfail].
  eexists _, _. split; [reflexivity|]. simpl.
  split; [done|]. split; [done|]. split; [done|].
  split; [apply strip_idempotent|].
  split; [by rewrite strip_empty_iff, count_words_zero_iff|done].
Qed.

(** X2. A source that cannot be loaded gives the failed result in both
    extractors, with the loader's message under [error] and one error
    logged, whatever the OCR engine would answer. *)
Theorem unloadable_source_fails_both (E : OcrEnv) (self : OCRProcessor)
    (src : image_source E) (e : exn) (t : trace) :
  _load_image src = Raise e ->
  extract_text_from_image self src t
  = (Ok (failed_text self e),
     t ++ [Log ERROR "Error extracting text from image: {}" [A_exn e]])
  /\ extract_table_data self src t
     = (Ok (failed_table e),
        t ++ [Log ERROR "Error extracting table data: {}" [A_exn e]]).
Proof.
  intros Hload.
  by rewrite extract_text_from_image_run, extract_table_data_run,
    prepare_run, Hload.
Qed.

Lemma unloadable_source_fails_both_witness :
  tr_error (match (@extract_text_from_image Stub.working OCRProcessor_default
                     (SrcOther "<class 'int'>") []).1 with
            | Ok r => r
            | Raise e => failed_text OCRProcessor_default e
            end)
  = Some "Unsupported image source type: <class 'int'>"%string
  /\ (@extract_table_data Stub.working OCRProcessor_default
        (SrcOther "<class 'int'>") []).1
     = Ok (failed_table
             (mk_exn "ValueError" "Unsupported image source type: <class 'int'>")).
Proof.
  destruct (unloadable_source_fails_both Stub.working OCRProcessor_default
              (SrcOther "<class 'int'>")
              (mk_exn "ValueError" "Unsupported image source type: <class 'int'>")
              [] eq_refl) as [H1 H2].
  rewrite H1, H2. split; reflexivity.
Defined.

(** X3. When [_load_image] fails on a text, the exception is the one of
    opening the text as a file path: a failed base64 or image decoding is
    never what the caller sees. *)
Theorem load_text_failure_is_path_failure (E : OcrEnv) (s : string) (e : exn) :
  _load_image (SrcStr s) = Raise e -> Image_open_path s = Raise e.
Proof.
  unfold _load_image.
  destruct (startswith s "/" || startswith s "."); [done|].
  destruct (b64decode s) as [img_data|e']; simpl; [|done].
  by destruct (Image_open_bytes img_data).
Qed.

Lemma load_text_failure_is_path_failure_witness :
  @Image_open_path Stub.working "bases.pdf"
  = Raise (mk_exn "FileNotFoundError" "No such file or directory").
Proof.
  apply (load_text_failure_is_path_failure Stub.working). reflexivity.
Defined.

(** ** Batches *)

Section Batches.
Context {E : OcrEnv}.

Lemma batch_loop_pointwise (self : OCRProcessor) (total : Z)
    (sources : list (image_source E)) (idx : Z) (acc : list TextResult)
    (t : trace) :
  exists results t',
    batch_loop self total idx sources acc t = (Ok (acc ++ results), t')
    /\ Forall2 (fun src r => (extract_text_from_image self src []).1 = Ok r)
         sources results.
Proof.
  revert idx acc t. induction sources as [|src rest IH]; intros idx acc t.
  - exists [], t. simpl. run. by rewrite app_nil_r.
  - simpl. run.
    rewrite extract_text_from_image_appends.
    destruct (extract_text_from_image_total self src []) as [r Hr].
    rewrite Hr.
    destruct (IH (idx + 1) (acc ++ [r])
                ((t ++ [Log INFO "Processing image {}/{}" [A_int idx; A_int total]])
                   ++ (extract_text_from_image self src []).2))
      as (results & t' & Hrun & Hall).
    exists (r :: results), t'. rewrite Hrun, <- app_assoc. split; [done|].
    by constructor.
Qed.
End Batches.

(** X4. [batch_extract_text] returns one result per source, in the order
    of the sources, each the result the source gives on its own: a source
    that fails yields its failed result and the batch goes on. *)
Theorem batch_extract_text_pointwise (E : OcrEnv) (self : OCRProcessor)
    (image_sources : list (image_source E)) (t : trace) :
  exists results t',
    batch_extract_text self image_sources t = (Ok results, t')
    /\ length results = length image_sources
    /\ Forall2 (fun src r => (extract_text_from_image self src []).1 = Ok r)
         image_sources results.
Proof.
  destruct (batch_loop_pointwise self (Z.of_nat (length image_sources))
              image_sources 1 [] t) as (results & t' & Hrun & Hall).
  exists results, t'. split; [exact Hrun|]. split; [|exact Hall].
  symmetry. by eapply Forall2_length.
Qed.

Example batch_ex :
  List.map tr_error
    (match (@batch_extract_text Stub.working OCRProcessor_default
              [SrcStr "captcha.png"; SrcOther "<class 'int'>"; SrcStr "iVBORw=="]
              []).1 with
     | Ok results => results
     | Raise _ => []
     end)
  = [Some "'confidence'"; Some "Unsupported image source type: <class 'int'>";
     Some "'confidence'"]%string.
Proof. reflexivity. Qed.

(** ** The result of a table extraction *)

(** X6. [extract_table_data] always returns a dict, and its fields agree:
    [row_count] is the number of rows of [table], [error] is present exactly
    on failure, and a failure carries the empty table. *)
Theorem table_result_coherent (E : OcrEnv) (self : OCRProcessor)
    (src : image_source E) (t : trace) :
  exists r t',
    extract_table_data self src t = (Ok r, t')
    /\ tb_row_count r = length (tb_table r)
    /\ (tb_success r = true <-> tb_error r = None)
    /\ (tb_success r = false -> tb_table r = []).
Proof.
  rewrite extract_table_data_run. simpl.
  destruct (prepare self src t) as [[img|e] t1];
    [|eexists _, _; split; [reflexivity|]; by repeat split].
  destruct (image_to_data img (language self)) as [data|e];
    [|eexists _, _; split; [reflexivity|]; by repeat split].
  destruct (zip_boxes data) as [boxes|e];
    eexists _, _; (split; [reflexivity|]); by repeat split.
Qed.

(** X8. The row key follows the vertical order: a box that is not lower
    than another gets a key that is not smaller, two boxes more than 10
    pixels apart get different keys, and two boxes with one key are at most
    10 pixels apart. *)
Theorem row_key_follows_vertical_order (y1 y2 : Z) :
  y1 <= y2 ->
  row_key y1 <= row_key y2
  /\ (10 < y2 - y1 -> row_key y1 < row_key y2)
  /\ (row_key y1 = row_key y2 -> y2 - y1 <= 10).
Proof.
  intros Hle.
  pose proof (row_key_monotone y1 y2 Hle).
  pose proof (row_key_within_5 y1). pose proof (row_key_within_5 y2).
  repeat split; lia.
Qed.

Lemma row_key_follows_vertical_order_witness :
  row_key 95 <= row_key 105 /\ 105 - 95 <= 10 /\ row_key 95 < row_key 106.
Proof.
  destruct (row_key_follows_vertical_order 95 105 ltac:(lia)) as (H1 & _ & H3).
  destruct (row_key_follows_vertical_order 95 106 ltac:(lia)) as (_ & H2 & _).
  split; [exact H1|]. split; [apply H3; reflexivity | apply H2; lia].
Defined.

(** Keys 95 and 105 meet at 100, while 104 and 106 are split. *)
Example row_key_edges :
  List.map row_key [95; 105; 104; 106] = [100; 100; 100; 110].
Proof. reflexivity. Qed.

(** ** What the solver does to the page *)

Lemma typed_app (t u : trace) : typed (t ++ u) = typed t ++ typed u.
Proof.
  induction t as [|ev t IH]; simpl; [done|]. destruct ev; simpl; by rewrite IH.
Qed.

Lemma actions_app (t u : trace) : actions (t ++ u) = actions t ++ actions u.
Proof. unfold actions. apply List.filter_app. Qed.

Lemma clicks_app (t u : trace) : clicks (t ++ u) = (clicks t + clicks u)%nat.
Proof. unfold clicks. by rewrite List.filter_app, length_app. Qed.

Lemma close_calls_app (t u : trace) :
  close_calls (t ++ u) = (close_calls t + close_calls u)%nat.
Proof. unfold close_calls. by rewrite List.filter_app, length_app. Qed.

Lemma counts_cons_log lv template args (t : trace) :
  clicks (Log lv template args :: t) = clicks t
  /\ solve_calls (Log lv template args :: t) = solve_calls t
  /\ close_calls (Log lv template args :: t) = close_calls t
  /\ actions (Log lv template args :: t) = actions t.
Proof. done. Qed.

Lemma counts_nil :
  clicks [] = 0%nat /\ solve_calls [] = 0%nat /\ close_calls [] = 0%nat
  /\ actions [] = [].
Proof. done. Qed.

(** Brings the counts of a trace down to the counts of its parts. *)
Ltac counts :=
  repeat first
    [ rewrite (proj1 (counts_cons_log _ _ _ _))
    | rewrite (proj1 (proj2 (counts_cons_log _ _ _ _)))
    | rewrite (proj1 (proj2 (proj2 (counts_cons_log _ _ _ _))))
    | rewrite (proj2 (proj2 (proj2 (counts_cons_log _ _ _ _))))
    | rewrite clicks_app | rewrite solve_calls_app | rewrite close_calls_app
    | rewrite actions_app | rewrite typed_app | rewrite length_app
    | rewrite (proj1 counts_nil)
    | rewrite (proj1 (proj2 counts_nil))
    | rewrite (proj1 (proj2 (proj2 counts_nil)))
    | rewrite (proj2 (proj2 (proj2 counts_nil))) ];
  simpl.

(** Closes a goal about the events of one explicit path. *)
Ltac path_facts :=
  rewrite <- ?app_assoc; simpl;
  eexists _, _; split; [try reflexivity; by rewrite (app_nil_r _)|];
  cbv [clicks close_calls solve_calls actions]; simpl;
  repeat split; try done; try lia.

(** X9. [_input_captcha_text] raises nothing. It returns [True] exactly
    when the field is found under the id, or else under the CSS selector
    made of the id, and clearing and typing both go through; the text is
    typed exactly when it returns [True]. *)
Theorem input_text_true_iff_typed (E : OcrEnv) (P : Page)
    (text input_id : string) (t : trace) :
  exists r u,
    _input_captcha_text text input_id t = (Ok r, t ++ u)
    /\ typed u = (if r then [text] else [])
    /\ (r = true <->
        exists input_field,
          (find_element By_ID input_id = Ok input_field
           \/ (is_ok (find_element By_ID input_id) = false
               /\ find_element By_CSS_SELECTOR ("#" +:+ input_id)
                  = Ok input_field))
          /\ clear input_field = Ok tt
          /\ send_keys input_field text = Ok tt).
Proof.
  unfold _input_captcha_text. run. simpl.
  destruct (find_element By_ID input_id) as [f|e] eqn:Hid; simpl.
  - destruct (clear f) as [[]|e] eqn:Hclear; simpl.
    + destruct (send_keys f text) as [[]|e] eqn:Hsend; simpl.
      * path_facts. intros _. exists f. eauto.
      * path_facts. intros (f' & [[= <-]|[[=] _]] & _ & Hs). congruence.
    + path_facts. intros (f' & [[= <-]|[[=] _]] & Hc & _). congruence.
  - destruct (find_element By_CSS_SELECTOR ("#" +:+ input_id)) as [f|e']
      eqn:Hcss; simpl.
    + destruct (clear f) as [[]|e'] eqn:Hclear; simpl.
      * destruct (send_keys f text) as [[]|e'] eqn:Hsend; simpl.
        -- path_facts. intros _. exists f. eauto.
        -- path_facts. intros (f' & [[=]|[_ [= <-]]] & _ & Hs). congruence.
      * path_facts. intros (f' & [[=]|[_ [= <-]]] & Hc & _). congruence.
    + path_facts. intros (f' & [[=]|[_ [=]]] & _).
Qed.

(** The field is there but typing fails: the field is cleared, nothing is
    typed, and the answer is [False]. *)
Example input_after_clear_fails :
  let P : @Page Stub.working :=
    {| WebElement := unit;
       wait_presence := fun _ _ => Ok tt;
       wait_clickable := fun _ _ => Ok tt;
       find_element := fun _ _ => Ok tt;
       get_attribute := fun _ _ => Ok None;
       clear := fun _ => Ok tt;
       send_keys := fun _ _ => Raise Stub.no_such_element;
       click := fun _ => Ok tt;
       urljoin := fun base url => (base +:+ url)%string;
       requests_get := fun _ => Raise Stub.no_such_element |} in
  @_input_captcha_text Stub.working P "AB12" default_input_id []
  = (Ok false,
     [Cleared;
      Log ERROR "Error inputting CAPTCHA text: {}" [A_exn Stub.no_such_element]]).
Proof. reflexivity. Qed.

Section SolverFacts.
Context {E : OcrEnv} {P : Page}.

Lemma _download_image_facts (self : CaptchaSolver E) (url : string) (t : trace) :
  exists r u,
    _download_image self url t = (Ok r, t ++ u)
    /\ actions u = [] /\ solve_calls u = 0%nat.
Proof.
  unfold _download_image. run. simpl.
  repeat step; path_facts.
Qed.

Lemma solve_facts (self : CaptchaSolver E) (input_id : string) (t : trace) :
  exists r u,
    solve self input_id t = (Ok r, t ++ u)
    /\ (r = false -> actions u = [])
    /\ Forall (fun text => strip text = text /\ text <> EmptyString) (typed u)
    /\ (length (typed u) <= 1)%nat
    /\ clicks u = 0%nat
    /\ close_calls u = 0%nat
    /\ solve_calls u = 1%nat.
Proof.
  unfold solve, _extract_captcha_text, _input_captcha_text, _download_image.
  run. simpl.
  repeat step; path_facts;
    repeat constructor; try apply strip_idempotent; by apply truthy_iff.
Qed.
End SolverFacts.

(** X10. [solve] raises nothing, whatever the page, the network and the
    OCR processor do. When it returns [False] it has neither cleared nor
    typed anything; it types at most once, and what it types is never empty
    and has no white space at either end. *)
Theorem solve_types_only_clean_text (E : OcrEnv) (P : Page)
    (self : CaptchaSolver E) (input_id : string) (t : trace) :
  exists r u,
    solve self input_id t = (Ok r, t ++ u)
    /\ (r = false -> actions u = [])
    /\ Forall (fun text => strip text = text /\ text <> EmptyString) (typed u)
    /\ (length (typed u) <= 1)%nat.
Proof.
  destruct (solve_facts self input_id t) as (r & u & H1 & H2 & H3 & H4 & _).
  by exists r, u.
Qed.

(** X11. [get_captcha_image] raises nothing and leaves the page alone: it
    clears, types and clicks nothing and does not call [solve]. It returns
    an image only if the CAPTCHA element is on the page with a non-empty
    [src]. *)
Theorem get_captcha_image_only_looks (E : OcrEnv) (P : Page)
    (self : CaptchaSolver E) (t : trace) :
  exists r u,
    get_captcha_image self t = (Ok r, t ++ u)
    /\ actions u = []
    /\ solve_calls u = 0%nat
    /\ (r <> None ->
        exists captcha_img src,
          find_element By_XPATH captcha_xpath = Ok captcha_img
          /\ get_attribute captcha_img "src" = Ok (Some src)
          /\ truthy src = true).
Proof.
  unfold get_captcha_image. run.
  destruct (find_element By_XPATH captcha_xpath) as [el|e] eqn:Hel; simpl;
    [|path_facts].
  destruct (get_attribute el "src") as [[src|]|e] eqn:Hsrc; simpl;
    [|path_facts|path_facts].
  destruct (truthy src) eqn:Htr; [|path_facts].
  destruct (_download_image_facts self src t) as (r & u & -> & Ha & Hs).
  exists r, u. repeat split; try done. intros _. by exists el, src.
Qed.

Example get_captcha_image_ex :
  @get_captcha_image Stub.working (Stub.page (Ok tt))
    (new_CaptchaSolver None) []
  = (Ok (Some [60; 200]), []).
Proof. reflexivity. Qed.

(** ** One attachment *)

Section AttachmentFacts.
Context {E : OcrEnv}.

Lemma click_download_facts (P : Page) (w : Web E) (t : trace) :
  exists r u,
    click_download w t = (r, t ++ u)
    /\ (clicks u <= 1)%nat
    /\ (forall f, r = Ok (Some f) -> clicks u = 1%nat)
    /\ typed u = []
    /\ solve_calls u = 0%nat
    /\ close_calls u = 0%nat.
Proof.
  unfold click_download, _get_latest_download. run. simpl.
  repeat step; path_facts; intros; by simplify_eq.
Qed.

Lemma _download_attachment_facts (self : MercadoPublicoDownloader E)
    (w : Web E) (url : string) (t : trace) :
  exists r u,
    _download_attachment self w url t = (Ok r, t ++ u)
    /\ (clicks u <= 1)%nat
    /\ (r <> None -> clicks u = 1%nat)
    /\ (length (typed u) <= 1)%nat
    /\ (solve_calls u <= 1)%nat
    /\ close_calls u = 0%nat.
Proof.
  unfold _download_attachment. run.
  destruct (driver_get w url) as [page|e]; [|path_facts].
  destruct (@_has_captcha E page).
  - destruct (@solve_facts E page (captcha_solver self) default_input_id
                (t ++ [Log INFO "CAPTCHA detected, attempting to solve..." []]))
      as (r & u & -> & _ & _ & Hty & Hcl & Hcc & Hsc).
    destruct r.
    + destruct (click_download_facts page w
                  ((t ++ [Log INFO "CAPTCHA detected, attempting to solve..." []])
                     ++ u)) as (r' & v & -> & H1 & H2 & H3 & H4 & H5).
      destruct r' as [o|e]; rewrite <- !app_assoc; eexists _, _;
        (split; [reflexivity|]); counts;
        rewrite ?H3, ?H4, ?H5, ?Hcl, ?Hcc, ?Hsc; simpl;
        repeat split; try lia; try done.
      intros Ho. destruct o as [f|]; [|done]. rewrite (H2 f eq_refl). lia.
    + rewrite <- !app_assoc. eexists _, _. split; [reflexivity|].
      counts. rewrite ?Hcl, ?Hcc, ?Hsc. simpl.
      repeat split; try lia; done.
  - destruct (click_download_facts page w t) as (r' & v & -> & H1 & H2 & H3 & H4 & H5).
    destruct r' as [o|e]; rewrite <- ?app_assoc; eexists _, _;
      (split; [reflexivity|]); counts;
      rewrite ?H3, ?H4, ?H5; simpl; repeat split; try lia; try done.
    intros Ho. destruct o as [f|]; [|done]. rewrite (H2 f eq_refl). lia.
Qed.

(** [solve] with the processor the downloader builds. *)
Lemma solve_stock_false (P : Page) (input_id : string) (t : trace) :
  exists u,
    solve (captcha_solver new_downloader) input_id t = (Ok false, t ++ u)
    /\ actions u = [].
Proof.
  unfold new_downloader, new_CaptchaSolver, solve, _extract_captcha_text,
    _download_image. run. simpl.
  repeat step; rewrite <- ?app_assoc; simpl; eexists;
    (split; [reflexivity|reflexivity]).
Qed.

Lemma stock_attachment_none (w : Web E) (url : string) (t : trace) :
  (forall page, driver_get w url = Ok page -> @_has_captcha E page = true) ->
  exists u,
    _download_attachment new_downloader w url t = (Ok None, t ++ u)
    /\ actions u = [].
Proof.
  intros Hcap. unfold _download_attachment. run.
  destruct (driver_get w url) as [page|e] eqn:Hget.
  - rewrite (Hcap page eq_refl). cbv iota.
    destruct (solve_stock_false page default_input_id
                (t ++ [Log INFO "CAPTCHA detected, attempting to solve..." []]))
      as (u & -> & Hu).
    rewrite <- !app_assoc. eexists. split; [reflexivity|].
    counts. by rewrite Hu.
  - eexists. split; reflexivity.
Qed.
End AttachmentFacts.

(** X12. [_download_attachment] raises nothing. It returns a file path
    only after it has clicked the download button; it clicks at most once
    and types at most one text. *)
Theorem download_attachment_reports_after_click (E : OcrEnv)
    (self : MercadoPublicoDownloader E) (w : Web E) (url : string) (t : trace) :
  exists r u,
    _download_attachment self w url t = (Ok r, t ++ u)
    /\ (r <> None -> clicks u = 1%nat)
    /\ (clicks u <= 1)%nat
    /\ (length (typed u) <= 1)%nat.
Proof.
  destruct (_download_attachment_facts self w url t)
    as (r & u & H & H1 & H2 & H3 & _).
  by exists r, u.
Qed.

(** X13. The downloader as its constructor builds it (with an
    [OCRProcessor] of the class itself) gives up every attachment whose page
    shows a CAPTCHA: it returns [None] and has cleared, typed and clicked
    nothing. *)
Theorem stock_downloader_stops_at_captcha (E : OcrEnv) (w : Web E)
    (url : string) (page : Page) (t : trace) :
  driver_get w url = Ok page ->
  @_has_captcha E page = true ->
  exists u,
    _download_attachment new_downloader w url t = (Ok None, t ++ u)
    /\ actions u = [].
Proof.
  intros Hget Hcap. apply stock_attachment_none.
  intros page' Hget'. congruence.
Qed.

Lemma stock_downloader_stops_at_captcha_witness :
  exists u,
    @_download_attachment Stub.working new_downloader
      (Stub.web (Stub.page (Ok tt))) "/ViewBidAttachment.aspx?a=1" []
    = (Ok None, [] ++ u)
    /\ actions u = [].
Proof.
  apply (stock_downloader_stops_at_captcha Stub.working
           (Stub.web (Stub.page (Ok tt))) "/ViewBidAttachment.aspx?a=1"
           (Stub.page (Ok tt)) []); reflexivity.
Defined.

(** ** The links of a tender *)

Section Links.
Context {E : OcrEnv} (tp : TenderPage E).

(** The links are those of the elements before the first one whose
    [href] cannot be read, in the order of the elements. *)
Lemma collect_links_prefix
    (elements : list (@WebElement E (tender_page tp))) (links : list string) :
  exists n,
    (n <= length elements)%nat
    /\ (collect_links tp elements links).1
       = links ++ flat_map (fun el => kept (get_attribute el "href"))
                    (firstn n elements)
    /\ Forall (fun el => is_ok (get_attribute el "href") = true)
         (firstn n elements)
    /\ ((collect_links tp elements links).2 = None /\ n = length elements
        \/ exists el e,
             (collect_links tp elements links).2 = Some e
             /\ nth_error elements n = Some el
             /\ get_attribute el "href" = Raise e).
Proof.
  revert links. induction elements as [|el rest IH]; intros links.
  - exists 0%nat. simpl. rewrite app_nil_r. repeat split; auto.
  - simpl. destruct (get_attribute el "href") as [href|e] eqn:Hhref.
    + destruct (IH (match href with
                    | Some h => if truthy h then links ++ [h] else links
                    | None => links
                    end)) as (n & Hn & Hfst & Hread & Hsnd).
      exists (S n). split; [simpl; lia|]. split; [|split].
      * rewrite Hfst. simpl. rewrite Hhref. simpl.
        destruct href as [h|]; [|done].
        destruct (truthy h); [|done]. by rewrite <- app_assoc.
      * simpl. constructor; [by rewrite Hhref|done].
      * destruct Hsnd as [[Hnone ->]|(el' & e & Hsome & Hnth & Hraise)];
          [by left|]. right. by exists el', e.
    + exists 0%nat. split; [simpl; lia|]. split; [by rewrite app_nil_r|].
      split; [constructor|]. right. by exists el, e.
Qed.

Lemma kept_not_empty (o : result (option string)) :
  Forall (fun l => l <> EmptyString) (kept o).
Proof.
  destruct o as [[h|]|e]; simpl; try constructor.
  destruct (truthy h) eqn:Hh; constructor; [|constructor].
  by apply truthy_iff.
Qed.

Lemma flat_map_kept_not_empty {B} (f : B -> result (option string)) (l : list B) :
  Forall (fun s => s <> EmptyString) (flat_map (fun b => kept (f b)) l).
Proof.
  induction l as [|b l IH]; simpl; [constructor|].
  apply Forall_app. split; [apply kept_not_empty|done].
Qed.
End Links.

Lemma _find_attachment_links_facts (E : OcrEnv) (tp : TenderPage E)
    (t : trace) :
  exists links u,
    _find_attachment_links tp t = (Ok links, t ++ u)
    /\ (actions u = [] /\ clicks u = 0%nat /\ solve_calls u = 0%nat
        /\ close_calls u = 0%nat)
    /\ Forall (fun l => l <> EmptyString) links
    /\ (is_ok (find_elements tp By_XPATH attachment_xpath) = false ->
        links = [])
    /\ (forall elements,
          find_elements tp By_XPATH attachment_xpath = Ok elements ->
          exists n,
            (n <= length elements)%nat
            /\ links = flat_map (fun el => kept (get_attribute el "href"))
                         (firstn n elements)
            /\ Forall (fun el => is_ok (get_attribute el "href") = true)
                 (firstn n elements)
            /\ (n = length elements
                \/ exists el e, nth_error elements n = Some el
                                /\ get_attribute el "href" = Raise e)).
Proof.
  unfold _find_attachment_links.
  destruct (find_elements tp By_XPATH attachment_xpath) as [elements|e].
  - destruct (collect_links_prefix tp elements [])
      as (n & Hn & Hfst & Hread & Hsnd).
    destruct (collect_links tp elements []) as [links err]. simpl in *.
    assert (Hclean : Forall (fun l => l <> EmptyString) links)
      by (rewrite Hfst; apply flat_map_kept_not_empty).
    assert (Hspec : forall elements0, Ok elements = Ok elements0 ->
      exists n, (n <= length elements0)%nat
        /\ links = flat_map (fun el => kept (get_attribute el "href"))
                     (firstn n elements0)
        /\ Forall (fun el => is_ok (get_attribute el "href") = true)
             (firstn n elements0)
        /\ (n = length elements0
            \/ exists el e, nth_error elements0 n = Some el
                            /\ get_attribute el "href" = Raise e)).
    { intros ? [= <-]. exists n. split; [done|]. split; [done|].
      split; [done|].
      destruct Hsnd as [[_ ->]|(el & e & _ & Hnth & Hr)]; [by left|].
      right. by exists el, e. }
    destruct err as [e|]; run; simpl.
    + exists links, [Log ERROR "Error finding attachment links: {}" [A_exn e]].
      by repeat split.
    + exists links, []. rewrite app_nil_r. by repeat split.
  - run. simpl.
    exists [], [Log ERROR "Error finding attachment links: {}" [A_exn e]].
    by repeat split.
Qed.

(** X14. [_find_attachment_links] raises nothing and does nothing to the
    page. When the elements cannot be listed it returns no link. Otherwise
    there is a number [n] of leading elements whose [href] can all be read,
    the links are their non-empty [href]s in order, and either [n] is the
    number of elements or the [href] of element [n] cannot be read: the
    links stop at the first element whose [href] cannot be read. *)
Theorem find_attachment_links_prefix (E : OcrEnv) (tp : TenderPage E)
    (t : trace) :
  exists links u,
    _find_attachment_links tp t = (Ok links, t ++ u)
    /\ actions u = []
    /\ Forall (fun l => l <> EmptyString) links
    /\ (is_ok (find_elements tp By_XPATH attachment_xpath) = false ->
        links = [])
    /\ (forall elements,
          find_elements tp By_XPATH attachment_xpath = Ok elements ->
          exists n,
            (n <= length elements)%nat
            /\ links = flat_map (fun el => kept (get_attribute el "href"))
                         (firstn n elements)
            /\ Forall (fun el => is_ok (get_attribute el "href") = true)
                 (firstn n elements)
            /\ (n = length elements
                \/ exists el e, nth_error elements n = Some el
                                /\ get_attribute el "href" = Raise e)).
Proof.
  destruct (_find_attachment_links_facts E tp t)
    as (links & u & H & (Ha & _) & H1 & H2 & H3).
  by exists links, u.
Qed.

Example find_attachment_links_ex :
  (@_find_attachment_links Stub.working StubRest.tender []).1
  = Ok ["/ViewBidAttachment.aspx?a=1"; "/ViewBidAttachment.aspx?a=2"]%string.
Proof. reflexivity. Qed.

(** ** A whole tender *)

Section Documents.
Context {E : OcrEnv}.

Lemma download_loop_facts (self : MercadoPublicoDownloader E) (b : Browser E)
    (total : Z) (links : list string) (i : Z) (acc : list string) (t : trace) :
  exists new u,
    download_loop self b total i links acc t = (Ok (acc ++ new), t ++ u)
    /\ (length new <= clicks u)%nat
    /\ (clicks u <= length links)%nat
    /\ (solve_calls u <= length links)%nat
    /\ close_calls u = 0%nat
    /\ Forall (fun f => f <> EmptyString) new.
Proof.
  revert i acc t. induction links as [|link rest IH]; intros i acc t.
  - exists [], []. simpl. run. rewrite !app_nil_r. by repeat split.
  - simpl. run.
    destruct (_download_attachment_facts self (web b) link
                (t ++ [Log INFO "Downloading attachment {}/{}"
                         [A_int (i + 1); A_int total]]))
      as (r & u & -> & Hc & Hr & _ & Hs & Hcl).
    destruct (IH (i + 1)
                (match r with
                 | Some f => if truthy f then acc ++ [f] else acc
                 | None => acc
                 end)
                ((t ++ [Log INFO "Downloading attachment {}/{}"
                          [A_int (i + 1); A_int total]]) ++ u))
      as (new & v & -> & H1 & H2 & H3 & H4 & H5).
    rewrite <- !app_assoc.
    assert (Hadd : exists first,
      (match r with
       | Some f => if truthy f then acc ++ [f] else acc
       | None => acc
       end) ++ new = acc ++ first ++ new
      /\ (length first <= clicks u)%nat
      /\ Forall (fun f => f <> EmptyString) first).
    { destruct r as [f|].
      - destruct (truthy f) eqn:Hf.
        + exists [f]. rewrite <- app_assoc. split; [done|].
          rewrite Hr by done. split; [simpl; lia|].
          constructor; [by apply truthy_iff|constructor].
        + exists []. repeat split; [simpl; lia|constructor].
      - exists []. repeat split; [simpl; lia|constructor]. }
    destruct Hadd as (first & -> & Hlen & Hne).
    eexists (first ++ new), _. split; [reflexivity|].
    counts. rewrite ?Hcl, ?H4, ?length_app. simpl.
    repeat split; try lia. by apply Forall_app.
Qed.

Lemma close_facts (b : Browser E) (t : trace) :
  exists u,
    close b t = (Ok tt, t ++ Enter "MercadoPublicoDownloader.close" :: u)
    /\ actions u = [] /\ close_calls u = 0%nat /\ clicks u = 0%nat
    /\ solve_calls u = 0%nat.
Proof.
  unfold close. run. simpl.
  destruct (quit b) as [[]|e]; rewrite <- ?app_assoc; simpl; eexists;
    (split; [reflexivity|done]).
Qed.
End Documents.

Section WholeTender.
Context {E : OcrEnv}.

Lemma download_documents_facts (self : MercadoPublicoDownloader E)
    (b : Browser E) (tender_url : string) (t : trace) :
  exists files u0 u1,
    download_documents self b tender_url t
    = (Ok files, t ++ u0 ++ Enter "MercadoPublicoDownloader.close" :: u1)
    /\ close_calls u0 = 0%nat
    /\ (actions u1 = [] /\ close_calls u1 = 0%nat /\ clicks u1 = 0%nat
        /\ solve_calls u1 = 0%nat)
    /\ (length files <= clicks u0)%nat
    /\ Forall (fun f => f <> EmptyString) files
    /\ (is_ok (tender_get b tender_url) = false ->
        files = [] /\ actions u0 = [])
    /\ (forall tp links,
          tender_get b tender_url = Ok tp ->
          (_find_attachment_links tp t).1 = Ok links ->
          (clicks u0 <= length links)%nat
          /\ (solve_calls u0 <= length links)%nat).
Proof.
  unfold download_documents. run.
  destruct (tender_get b tender_url) as [tp|e] eqn:Hget; simpl.
  - destruct (wait_all_present tp By_XPATH bid_xpath) as [els|e] eqn:Hwait.
    + destruct (_find_attachment_links_facts E tp t)
        as (links & ul & Hl & (Hal & Hcl & Hsl & Hql) & _).
      rewrite Hl.
      destruct (download_loop_facts self b (Z.of_nat (length links)) links 0 []
                  ((t ++ ul) ++ [Log INFO "Found {} attachment links"
                                   [A_int (Z.of_nat (length links))]]))
        as (new & u & -> & H1 & H2 & H3 & H4 & H5).
      destruct (close_facts b
                  (((t ++ ul) ++ [Log INFO "Found {} attachment links"
                                    [A_int (Z.of_nat (length links))]]) ++ u))
        as (u1 & -> & Ha1 & Hc1 & Hk1 & Hs1).
      exists new,
        (ul ++ [Log INFO "Found {} attachment links"
                  [A_int (Z.of_nat (length links))]] ++ u), u1.
      split; [by rewrite <- !app_assoc|].
      counts. rewrite ?Hcl, ?Hsl, ?Hql, ?H4. simpl.
      repeat split; try done; try lia.
      all: match goal with
           | H : Ok _ = Ok ?tp', H' : (_find_attachment_links ?tp' _).1 = Ok _
             |- _ =>
               injection H as <-; rewrite Hl in H'; injection H' as <-; lia
           end.
    + destruct (close_facts b
                  (t ++ [Log ERROR "Error in download_documents: {}" [A_exn e]]))
        as (u1 & -> & Ha1 & Hc1 & Hk1 & Hs1).
      exists [], [Log ERROR "Error in download_documents: {}" [A_exn e]], u1.
      split; [by rewrite <- !app_assoc|].
      repeat split; try done; intros; counts; lia.
  - destruct (close_facts b
                (t ++ [Log ERROR "Error in download_documents: {}" [A_exn e]]))
      as (u1 & -> & Ha1 & Hc1 & Hk1 & Hs1).
    exists [], [Log ERROR "Error in download_documents: {}" [A_exn e]], u1.
    split; [by rewrite <- !app_assoc|].
    repeat split; try done; intros; counts; lia.
Qed.

End WholeTender.


(** X15. [download_documents] raises nothing and closes the browser once,
    after everything else it does to the page, on every path. It reports a
    file only for a click on a download button, and no file and no action
    when the tender page cannot be opened. *)
Theorem download_documents_closes_once (E : OcrEnv)
    (self : MercadoPublicoDownloader E) (b : Browser E) (tender_url : string)
    (t : trace) :
  exists files u0 u1,
    download_documents self b tender_url t
    = (Ok files, t ++ u0 ++ Enter "MercadoPublicoDownloader.close" :: u1)
    /\ close_calls u0 = 0%nat
    /\ close_calls u1 = 0%nat
    /\ actions u1 = []
    /\ (length files <= clicks u0)%nat
    /\ Forall (fun f => f <> EmptyString) files
    /\ (is_ok (tender_get b tender_url) = false ->
        files = [] /\ actions u0 = []).
Proof.
  destruct (download_documents_facts self b tender_url t)
    as (files & u0 & u1 & H & H0 & (Ha & Hc & _) & H1 & H2 & H3 & _).
  by exists files, u0, u1.
Qed.

Section PerLink.
Context {E : OcrEnv}.



End PerLink.





(** With a processor that reads the CAPTCHA both attachments are fetched;
    the downloader as built fetches the one without CAPTCHA only. *)
Example download_documents_ex :
  (@download_documents Stub.working
     {| captcha_solver :=
          new_CaptchaSolver (Some (@Stub.reader Stub.working (Some "AB12"%string))) |}
     StubRest.browser "https://www.mercadopublico.cl/BID/1" []).1
  = Ok ["downloads/bases.pdf"; "downloads/bases.pdf"]%string
  /\ (@download_documents Stub.working new_downloader
        StubRest.browser "https://www.mercadopublico.cl/BID/1" []).1
     = Ok ["downloads/bases.pdf"]%string.
Proof. split; reflexivity. Qed.

(** ** The properties on the test doubles *)

Lemma text_result_coherent_witness :
  exists r,
    (@extract_text_from_image Stub.no_engine OCRProcessor_default
       (@SrcImage Stub.no_engine [60; 200]) []).1 = Ok r
    /\ tr_text r = EmptyString /\ tr_confidence r = 0%Q.
Proof.
  destruct (text_result_coherent Stub.no_engine OCRProcessor_default
              (@SrcImage Stub.no_engine [60; 200]) [])
    as (r & t' & Heq & _ & _ & _ & _ & _ & Hfail).
  exists r. rewrite Heq. split; [reflexivity|]. apply Hfail.
  assert (Hrun : (@extract_text_from_image Stub.no_engine OCRProcessor_default
                    (@SrcImage Stub.no_engine [60; 200]) []).1
                 = Ok (failed_text OCRProcessor_default Stub.tesseract_missing))
    by reflexivity.
  rewrite Heq in Hrun. simpl in Hrun. injection Hrun as ->. reflexivity.
Defined.

Lemma table_result_coherent_witness :
  exists r,
    (@extract_table_data Stub.no_engine OCRProcessor_default
       (@SrcImage Stub.no_engine [60; 200]) []).1 = Ok r
    /\ tb_table r = [].
Proof.
  destruct (table_result_coherent Stub.no_engine OCRProcessor_default
              (@SrcImage Stub.no_engine [60; 200]) [])
    as (r & t' & Heq & _ & _ & Hfail).
  exists r. rewrite Heq. split; [reflexivity|]. apply Hfail.
  assert (Hrun : (@extract_table_data Stub.no_engine OCRProcessor_default
                    (@SrcImage Stub.no_engine [60; 200]) []).1
                 = Ok (failed_table Stub.tesseract_missing))
    by reflexivity.
  rewrite Heq in Hrun. simpl in Hrun. injection Hrun as ->. reflexivity.
Defined.

Lemma solve_types_only_clean_text_witness :
  exists u,
    @solve Stub.working (Stub.page (Ok tt)) (new_CaptchaSolver None)
      default_input_id []
    = (Ok false, u)
    /\ actions u = [].
Proof.
  destruct (solve_types_only_clean_text Stub.working (Stub.page (Ok tt))
              (new_CaptchaSolver None) default_input_id [])
    as (r & u & Heq & Hfalse & _).
  assert (Hrun : (@solve Stub.working (Stub.page (Ok tt))
                    (new_CaptchaSolver None) default_input_id []).1 = Ok false)
    by reflexivity.
  rewrite Heq in Hrun. simpl in Hrun. injection Hrun as ->.
  exists u. split; [exact Heq|]. by apply Hfalse.
Defined.

Lemma get_captcha_image_only_looks_witness :
  exists captcha_img src,
    @find_element Stub.working (Stub.page (Ok tt)) By_XPATH captcha_xpath
    = Ok captcha_img
    /\ @get_attribute Stub.working (Stub.page (Ok tt)) captcha_img "src"
       = Ok (Some src)
    /\ truthy src = true.
Proof.
  destruct (get_captcha_image_only_looks Stub.working (Stub.page (Ok tt))
              (new_CaptchaSolver None) [])
    as (r & u & Heq & _ & _ & Hsome).
  apply Hsome.
  assert (Hrun : (@get_captcha_image Stub.working (Stub.page (Ok tt))
                    (new_CaptchaSolver None) []).1 = Ok (Some [60; 200]))
    by reflexivity.
  rewrite Heq in Hrun. simpl in Hrun. injection Hrun as ->. discriminate.
Defined.

Lemma download_attachment_reports_after_click_witness :
  exists u,
    (@_download_attachment Stub.working new_downloader
       (Stub.web StubRest.plain_page) "/ViewBidAttachment.aspx?a=2" []).2 = u
    /\ clicks u = 1%nat.
Proof.
  destruct (download_attachment_reports_after_click Stub.working new_downloader
              (Stub.web StubRest.plain_page) "/ViewBidAttachment.aspx?a=2" [])
    as (r & u & Heq & Hsome & _).
  exists u. rewrite Heq. split; [reflexivity|]. apply Hsome.
  assert (Hrun : (@_download_attachment Stub.working new_downloader
                    (Stub.web StubRest.plain_page)
                    "/ViewBidAttachment.aspx?a=2" []).1
                 = Ok (Some "downloads/bases.pdf"%string))
    by reflexivity.
  rewrite Heq in Hrun. simpl in Hrun. injection Hrun as ->. discriminate.
Defined.

(** On the tender page whose second link has gone stale the statement
    leaves one answer: the first link alone. *)
Lemma find_attachment_links_prefix_witness :
  (@_find_attachment_links Stub.working StubRest.broken_tender []).1 = Ok []
  /\ (@_find_attachment_links Stub.working StubRest.flaky_tender []).1
     = Ok ["/ViewBidAttachment.aspx?a=1"%string].
Proof.
  split.
  - destruct (find_attachment_links_prefix Stub.working StubRest.broken_tender [])
      as (links & u & Heq & _ & _ & Hnone & _).
    rewrite Heq. simpl. f_equal. apply Hnone. reflexivity.
  - destruct (find_attachment_links_prefix Stub.working StubRest.flaky_tender [])
      as (links & u & Heq & _ & _ & _ & Hall).
    destruct (Hall _ eq_refl) as (n & Hn & Hlinks & Hread & Hstop).
    rewrite Heq. simpl. f_equal.
    destruct n as [|[|n]].
    + destruct Hstop as [Hlen|(el & e & Hnth & Hraise)]; [discriminate|].
      injection Hnth as <-. discriminate.
    + exact Hlinks.
    + simpl in Hread. apply Forall_cons in Hread as [_ Hread].
      apply Forall_cons in Hread as [Hstale _]. discriminate.
Defined.

Example find_attachment_links_flaky :
  @_find_attachment_links Stub.working StubRest.flaky_tender []
  = (Ok ["/ViewBidAttachment.aspx?a=1"%string],
     [Log ERROR "Error finding attachment links: {}" [A_exn StubRest.stale]]).
Proof. reflexivity. Qed.

Lemma download_documents_closes_once_witness :
  exists u,
    @download_documents Stub.working new_downloader StubRest.offline_browser
      "https://www.mercadopublico.cl/BID/1" []
    = (Ok [], u)
    /\ close_calls u = 1%nat.
Proof.
  destruct (download_documents_closes_once Stub.working new_downloader
              StubRest.offline_browser "https://www.mercadopublico.cl/BID/1" [])
    as (files & u0 & u1 & Heq & Hc0 & Hc1 & _ & _ & _ & Hoff).
  destruct (Hoff eq_refl) as [-> _].
  eexists. split; [exact Heq|].
  simpl. rewrite close_calls_app, Hc0.
  change (close_calls ([Enter "MercadoPublicoDownloader.close"] ++ u1) = 1%nat).
  rewrite close_calls_app, Hc1. reflexivity.
Defined.
